(** * NO2-TEC viewer: selection, data resolution and rendering pipeline

    A shallow embedding of [docs/app.js] and the properties of its
    specification.

    Conventions of the embedding.

    - A JavaScript Number is a value of [num]: NaN, the two infinities, or
      a finite value given by an exact rational.  A result whose magnitude
      reaches the binary64 overflow bound becomes an infinity, as in
      IEEE 754; the rounding of the significand and the sign of zero are
      not represented.  Numbers that are integral by construction (results
      of [parseInt] and [Math.round], array lengths) live in [integral].
    - Strings are [string]; the texts handled here (dates, times, layer
      names, URLs) are ASCII.
    - A parsed JSON object is the record of the properties the program
      reads, each of them optional.  [times_utc] holds a list of strings
      or any value that is no list; the other properties hold values of
      the type the program uses them at.  The numbers of a cell are read
      through ToNumber, so that an absent [val] is NaN.
    - The page is a record of the module-level variables and of the widget
      properties the program reads and writes.  A widget keeps the string
      assigned to it; the grid layer of the map is the list of the
      rectangles added to it, and the map takes any rectangle.
    - The network is a function from the requests made so far and a URL to
      the outcome of the fetch.  An [async] function is run to completion
      without another handler running in between. *)

From Stdlib Require Import ZArith QArith Qround Qabs Lqa Lia.
From Stdlib Require Import Bool List String Ascii DecimalString DecimalPos.
Import ListNotations.

Local Open Scope string_scope.

(** ** Numbers *)

Module Num.

Inductive num : Type :=
| NaN
| PosInf
| NegInf
| Fin (q : Q).

(** Exact results at or beyond this magnitude round to an infinity
    (binary64, round to nearest even). *)
Definition overflowBound : Q := inject_Z (2 ^ 1024 - 2 ^ 970).

Definition fin (q : Q) : num :=
  if Qle_bool overflowBound q then PosInf
  else if Qle_bool q (- overflowBound) then NegInf
  else Fin q.

(** Integral numbers. *)
Inductive integral : Type :=
| INaN
| IPosInf
| INegInf
| IInt (z : Z).

Definition ofIntegral (i : integral) : num :=
  match i with
  | INaN => NaN
  | IPosInf => PosInf
  | INegInf => NegInf
  | IInt z => Fin (inject_Z z)
  end.

Definition isFinite (a : num) : bool :=
  match a with Fin _ => true | _ => false end.

Definition Number_isFinite (i : integral) : bool :=
  match i with IInt _ => true | _ => false end.

(** ToBoolean on a Number: zero and NaN are falsy. *)
Definition truthy (a : num) : bool :=
  match a with
  | NaN => false
  | Fin q => negb (Qeq_bool q 0)
  | _ => true
  end.

Definition neg (a : num) : num :=
  match a with
  | NaN => NaN
  | PosInf => NegInf
  | NegInf => PosInf
  | Fin q => Fin (- q)
  end.

Definition add (a b : num) : num :=
  match a, b with
  | NaN, _ | _, NaN => NaN
  | PosInf, NegInf | NegInf, PosInf => NaN
  | PosInf, _ | _, PosInf => PosInf
  | NegInf, _ | _, NegInf => NegInf
  | Fin x, Fin y => fin (x + y)
  end.

Definition sub (a b : num) : num := add a (neg b).

Definition signOf (q : Q) : comparison := Qcompare q 0.

Definition mul (a b : num) : num :=
  match a, b with
  | NaN, _ | _, NaN => NaN
  | Fin x, Fin y => fin (x * y)
  | Fin x, PosInf | PosInf, Fin x =>
      match signOf x with Eq => NaN | Gt => PosInf | Lt => NegInf end
  | Fin x, NegInf | NegInf, Fin x =>
      match signOf x with Eq => NaN | Gt => NegInf | Lt => PosInf end
  | PosInf, PosInf | NegInf, NegInf => PosInf
  | PosInf, NegInf | NegInf, PosInf => NegInf
  end.

Definition div (a b : num) : num :=
  match a, b with
  | NaN, _ | _, NaN => NaN
  | Fin x, Fin y =>
      match signOf y with
      | Eq => match signOf x with Eq => NaN | Gt => PosInf | Lt => NegInf end
      | _ => fin (x / y)
      end
  | Fin _, _ => Fin 0
  | PosInf, Fin y => match signOf y with Lt => NegInf | _ => PosInf end
  | NegInf, Fin y => match signOf y with Lt => PosInf | _ => NegInf end
  | _, _ => NaN
  end.

(** The order of the extended line; NaN compares with nothing. *)
Definition leb (a b : num) : bool :=
  match a, b with
  | NaN, _ | _, NaN => false
  | NegInf, _ | _, PosInf => true
  | PosInf, _ | _, NegInf => false
  | Fin x, Fin y => Qle_bool x y
  end.

Definition ltb (a b : num) : bool :=
  match a, b with
  | NaN, _ | _, NaN => false
  | PosInf, _ | _, NegInf => false
  | NegInf, _ | _, PosInf => true
  | Fin x, Fin y => negb (Qle_bool y x)
  end.

(** [a == b] on Numbers. *)
Definition eqb (a b : num) : bool :=
  match a, b with
  | PosInf, PosInf | NegInf, NegInf => true
  | Fin x, Fin y => Qeq_bool x y
  | _, _ => false
  end.

Definition Math_max (a b : num) : num :=
  match a, b with
  | NaN, _ | _, NaN => NaN
  | _, _ => if leb a b then b else a
  end.

Definition Math_min (a b : num) : num :=
  match a, b with
  | NaN, _ | _, NaN => NaN
  | _, _ => if leb a b then a else b
  end.

(** [Math.round]: the nearest integer, ties towards plus infinity. *)
Definition Math_round (a : num) : integral :=
  match a with
  | NaN => INaN
  | PosInf => IPosInf
  | NegInf => INegInf
  | Fin q => IInt (Qfloor (q + (1 # 2)))
  end.

Definition Z_toString (z : Z) : string := NilZero.string_of_int (Z.to_int z).

(** ToString on an integral number. *)
Definition toString (i : integral) : string :=
  match i with
  | INaN => "NaN"
  | IPosInf => "Infinity"
  | INegInf => "-Infinity"
  | IInt z => Z_toString z
  end.

(** Zero-padded decimal fields of fixed width. *)
Definition digitChar (d : Z) : ascii := ascii_of_nat (48 + Z.to_nat (d mod 10)).

Definition pad2 (z : Z) : string :=
  String (digitChar (z / 10)) (String (digitChar z) EmptyString).

Definition pad3 (z : Z) : string := String (digitChar (z / 100)) (pad2 z).

Definition pad4 (z : Z) : string := String (digitChar (z / 1000)) (pad3 z).

Definition pad6 (z : Z) : string :=
  String (digitChar (z / 100000)) (String (digitChar (z / 10000)) (pad4 z)).

(** [x.toFixed(2)]: the decimal with two fraction digits nearest to [x],
    the larger one on a tie, computed on the magnitude and signed
    afterwards.  Written positionally at every magnitude. *)
Definition toFixed2 (a : num) : string :=
  match a with
  | NaN => "NaN"
  | PosInf => "Infinity"
  | NegInf => "-Infinity"
  | Fin q =>
      let n := Qfloor (Qabs q * 100 + (1 # 2)) in
      (if Qle_bool 0 q then "" else "-")
        ++ Z_toString (n / 100) ++ "." ++ pad2 (n mod 100)
  end.

End Num.

Import Num.

(** ** Strings *)

(** [s.slice(a, b)] for constant [0 <= a <= b]. *)
Definition slice (a b : nat) (s : string) : string := substring a (b - a) s.

(** [s.replaceAll("-", "")]. *)
Fixpoint removeHyphens (s : string) : string :=
  match s with
  | EmptyString => EmptyString
  | String c r => if Ascii.eqb c "-" then removeHyphens r else String c (removeHyphens r)
  end.

Definition upperChar (c : ascii) : ascii :=
  let n := nat_of_ascii c in
  if andb (97 <=? n)%nat (n <=? 122)%nat then ascii_of_nat (n - 32) else c.

Fixpoint toUpperCase (s : string) : string :=
  match s with
  | EmptyString => EmptyString
  | String c r => String (upperChar c) (toUpperCase r)
  end.

(** ** Date conversions *)

(** [(dateStr || "").replaceAll("-", "")]; an absent value is [None]. *)
Definition ymdToFolder (dateStr : option string) : string :=
  removeHyphens (match dateStr with Some s => s | None => "" end).

Definition folderToISODate (ymd : string) : string :=
  slice 0 4 ymd ++ "-" ++ slice 4 6 ymd ++ "-" ++ slice 6 8 ymd.

(** ** Colour scale *)

(** [vmax - vmin || 1] *)
Definition scaleDenominator (vmin vmax : num) : num :=
  let d := sub vmax vmin in if truthy d then d else Fin 1.

(** The [x] of [colorScale]. *)
Definition scaleX (v vmin vmax : num) : num :=
  Math_max (Fin 0) (Math_min (Fin 1) (div (sub v vmin) (scaleDenominator vmin vmax))).

Definition scaleRed (x : num) : integral := Math_round (mul (Fin 255) x).
Definition scaleBlue (x : num) : integral := Math_round (mul (Fin 255) (sub (Fin 1) x)).

(** The template [rgba(${r},0,${b},0.55)]. *)
Definition rgbaText (r b : integral) : string :=
  "rgba(" ++ toString r ++ ",0," ++ toString b ++ ",0.55)".

Definition transparent : string := "rgba(0,0,0,0)".

Definition colorScale (v vmin vmax : num) : string :=
  if negb (isFinite v) then transparent
  else
    let x := scaleX v vmin vmax in
    let r := scaleRed x in
    let b := scaleBlue x in
    rgbaText r b.

(** ** Integral numbers of the time slider *)

(** Exact integers at or beyond this magnitude convert to an infinity. *)
Definition overflowInt : Z := 2 ^ 1024 - 2 ^ 970.

Definition isWhiteSpace (c : ascii) : bool :=
  let n := nat_of_ascii c in
  orb (n =? 32)%nat (andb (9 <=? n)%nat (n <=? 13)%nat).

Fixpoint trimStart (s : string) : string :=
  match s with
  | String c r => if isWhiteSpace c then trimStart r else s
  | EmptyString => s
  end.

Definition digitOf (c : ascii) : option Z :=
  let n := nat_of_ascii c in
  if andb (48 <=? n)%nat (n <=? 57)%nat then Some (Z.of_nat (n - 48)) else None.

(** The value of the longest prefix of decimal digits; [acc] is [None]
    until a digit has been read. *)
Fixpoint leadingDigits (acc : option Z) (s : string) : option Z :=
  match s with
  | String c r =>
      match digitOf c with
      | Some d => leadingDigits (Some (10 * match acc with Some a => a | None => 0 end + d)%Z) r
      | None => acc
      end
  | EmptyString => acc
  end.

(** [parseInt(s, 10)] *)
Definition parseInt (s : string) : integral :=
  let s1 := trimStart s in
  let '(negative, s2) :=
    match s1 with
    | String c r =>
        if Ascii.eqb c "-" then (true, r)
        else if Ascii.eqb c "+" then (false, r)
        else (false, s1)
    | EmptyString => (false, s1)
    end in
  match leadingDigits None s2 with
  | None => INaN
  | Some n =>
      if (overflowInt <=? n)%Z then (if negative then INegInf else IPosInf)
      else IInt (if negative then - n else n)
  end.

(** [Math.max] and [Math.min] on integral arguments. *)
Definition Math_maxI (a b : integral) : integral :=
  match a, b with
  | INaN, _ | _, INaN => INaN
  | IPosInf, _ | _, IPosInf => IPosInf
  | INegInf, c | c, INegInf => c
  | IInt x, IInt y => IInt (Z.max x y)
  end.

Definition Math_minI (a b : integral) : integral :=
  match a, b with
  | INaN, _ | _, INaN => INaN
  | INegInf, _ | _, INegInf => INegInf
  | IPosInf, c | c, IPosInf => c
  | IInt x, IInt y => IInt (Z.min x y)
  end.

(** Lines 117 to 119 of [refresh]: the index read off the slider and
    clamped to the [len] known times. *)
Definition sliderIndex (len : nat) (sliderValue : string) : integral :=
  let i := parseInt (if String.eqb sliderValue "" then "0" else sliderValue) in
  let i := if negb (Number_isFinite i) then IInt 0 else i in
  Math_maxI (IInt 0) (Math_minI (IInt (Z.of_nat len - 1)) i).

(** [arr[i]]: [None] is [undefined]. *)
Definition element {A : Type} (arr : list A) (i : integral) : option A :=
  match i with
  | IInt z => if (z <? 0)%Z then None else nth_error arr (Z.to_nat z)
  | _ => None
  end.

(** ** JSON documents *)

Module Json.

(** A value that is no array, where the program only tells truthy from
    falsy. *)
Inductive scalar : Type :=
| Null
| Bool (b : bool)
| Number (n : num)
| Str (s : string)
| Object.

Definition scalarTruthy (v : scalar) : bool :=
  match v with
  | Null => false
  | Bool b => b
  | Number n => truthy n
  | Str s => negb (String.eqb s "")
  | Object => true
  end.

(** What [times_utc] may hold. *)
Inductive timesValue : Type :=
| Arr (l : list string)
| Other (v : scalar).

Record cellSize : Type := { dlat : option num; dlon : option num }.
Record valueRange : Type := { vmin : option num; vmax : option num }.
Record gridCell : Type := { lat : num; lon : num; val : num }.

(** A parsed object; [None] is an absent property, or one that is null
    where the program reads it with [??] or [||]. *)
Record object : Type := {
  date : option string;
  times_utc : option timesValue;
  cell : option cellSize;
  range : option valueRange;
  unit : option string;
  updated_utc : option string;
  cells : option (list gridCell)
}.

Definition empty : object :=
  {| date := None; times_utc := None; cell := None; range := None;
     unit := None; updated_utc := None; cells := None |}.

End Json.

(** A parsed document; [None] is the document [null]. *)
Definition json : Type := option Json.object.

(** [a?.f] *)
Definition optGet {A B : Type} (a : option A) (f : A -> option B) : option B :=
  match a with Some x => f x | None => None end.

(** [a ?? d] *)
Definition orElse {A : Type} (a : option A) (d : A) : A :=
  match a with Some x => x | None => d end.

(** [s || d] on an optional string: absent and empty are falsy. *)
Definition strOr (s : option string) (d : string) : string :=
  match s with
  | Some x => if String.eqb x "" then d else x
  | None => d
  end.

(** [idx?.times_utc || []] *)
Definition timesOr (idx : json) : Json.timesValue :=
  match optGet idx Json.times_utc with
  | Some (Json.Arr l) => Json.Arr l
  | Some (Json.Other v) => if Json.scalarTruthy v then Json.Other v else Json.Arr []
  | None => Json.Arr []
  end.

(** ** The page *)

(** A rectangle of the grid layer: its two corners, the options given to
    [L.rectangle] and the text bound as tooltip. *)
Record rect : Type := {
  south : num; west : num; north : num; east : num;
  stroke : bool;
  fillColor : string;
  fillOpacity : num;
  tooltip : string;
  sticky : bool
}.

(** The legend element, by the property last assigned. *)
Inductive legend : Type :=
| InnerHTML (s : string)
| TextContent (s : string).

Record page : Type := {
  currentDate : option string;
  currentKind : string;
  times : Json.timesValue;
  layerSelect_value : string;
  dateInput_value : string;
  timeSlider_min : string;
  timeSlider_max : string;
  timeSlider_value : string;
  timeLabel_textContent : string;
  statusEl_textContent : string;
  legendBody : legend;
  gridLayer : list rect;
  requests : list string
}.

Definition withCurrentDate (v : option string) (p : page) : page :=
  {| currentDate := v; currentKind := currentKind p; times := times p;
     layerSelect_value := layerSelect_value p; dateInput_value := dateInput_value p;
     timeSlider_min := timeSlider_min p; timeSlider_max := timeSlider_max p;
     timeSlider_value := timeSlider_value p;
     timeLabel_textContent := timeLabel_textContent p;
     statusEl_textContent := statusEl_textContent p; legendBody := legendBody p;
     gridLayer := gridLayer p; requests := requests p |}.

Definition withCurrentKind (v : string) (p : page) : page :=
  {| currentDate := currentDate p; currentKind := v; times := times p;
     layerSelect_value := layerSelect_value p; dateInput_value := dateInput_value p;
     timeSlider_min := timeSlider_min p; timeSlider_max := timeSlider_max p;
     timeSlider_value := timeSlider_value p;
     timeLabel_textContent := timeLabel_textContent p;
     statusEl_textContent := statusEl_textContent p; legendBody := legendBody p;
     gridLayer := gridLayer p; requests := requests p |}.

Definition withTimes (v : Json.timesValue) (p : page) : page :=
  {| currentDate := currentDate p; currentKind := currentKind p; times := v;
     layerSelect_value := layerSelect_value p; dateInput_value := dateInput_value p;
     timeSlider_min := timeSlider_min p; timeSlider_max := timeSlider_max p;
     timeSlider_value := timeSlider_value p;
     timeLabel_textContent := timeLabel_textContent p;
     statusEl_textContent := statusEl_textContent p; legendBody := legendBody p;
     gridLayer := gridLayer p; requests := requests p |}.

Definition withDateInput (v : string) (p : page) : page :=
  {| currentDate := currentDate p; currentKind := currentKind p; times := times p;
     layerSelect_value := layerSelect_value p; dateInput_value := v;
     timeSlider_min := timeSlider_min p; timeSlider_max := timeSlider_max p;
     timeSlider_value := timeSlider_value p;
     timeLabel_textContent := timeLabel_textContent p;
     statusEl_textContent := statusEl_textContent p; legendBody := legendBody p;
     gridLayer := gridLayer p; requests := requests p |}.

Definition withSliderMin (v : string) (p : page) : page :=
  {| currentDate := currentDate p; currentKind := currentKind p; times := times p;
     layerSelect_value := layerSelect_value p; dateInput_value := dateInput_value p;
     timeSlider_min := v; timeSlider_max := timeSlider_max p;
     timeSlider_value := timeSlider_value p;
     timeLabel_textContent := timeLabel_textContent p;
     statusEl_textContent := statusEl_textContent p; legendBody := legendBody p;
     gridLayer := gridLayer p; requests := requests p |}.

Definition withSliderMax (v : string) (p : page) : page :=
  {| currentDate := currentDate p; currentKind := currentKind p; times := times p;
     layerSelect_value := layerSelect_value p; dateInput_value := dateInput_value p;
     timeSlider_min := timeSlider_min p; timeSlider_max := v;
     timeSlider_value := timeSlider_value p;
     timeLabel_textContent := timeLabel_textContent p;
     statusEl_textContent := statusEl_textContent p; legendBody := legendBody p;
     gridLayer := gridLayer p; requests := requests p |}.

Definition withSliderValue (v : string) (p : page) : page :=
  {| currentDate := currentDate p; currentKind := currentKind p; times := times p;
     layerSelect_value := layerSelect_value p; dateInput_value := dateInput_value p;
     timeSlider_min := timeSlider_min p; timeSlider_max := timeSlider_max p;
     timeSlider_value := v;
     timeLabel_textContent := timeLabel_textContent p;
     statusEl_textContent := statusEl_textContent p; legendBody := legendBody p;
     gridLayer := gridLayer p; requests := requests p |}.

Definition withTimeLabel (v : string) (p : page) : page :=
  {| currentDate := currentDate p; currentKind := currentKind p; times := times p;
     layerSelect_value := layerSelect_value p; dateInput_value := dateInput_value p;
     timeSlider_min := timeSlider_min p; timeSlider_max := timeSlider_max p;
     timeSlider_value := timeSlider_value p;
     timeLabel_textContent := v;
     statusEl_textContent := statusEl_textContent p; legendBody := legendBody p;
     gridLayer := gridLayer p; requests := requests p |}.

Definition withStatus (v : string) (p : page) : page :=
  {| currentDate := currentDate p; currentKind := currentKind p; times := times p;
     layerSelect_value := layerSelect_value p; dateInput_value := dateInput_value p;
     timeSlider_min := timeSlider_min p; timeSlider_max := timeSlider_max p;
     timeSlider_value := timeSlider_value p;
     timeLabel_textContent := timeLabel_textContent p;
     statusEl_textContent := v; legendBody := legendBody p;
     gridLayer := gridLayer p; requests := requests p |}.

Definition withLegend (v : legend) (p : page) : page :=
  {| currentDate := currentDate p; currentKind := currentKind p; times := times p;
     layerSelect_value := layerSelect_value p; dateInput_value := dateInput_value p;
     timeSlider_min := timeSlider_min p; timeSlider_max := timeSlider_max p;
     timeSlider_value := timeSlider_value p;
     timeLabel_textContent := timeLabel_textContent p;
     statusEl_textContent := statusEl_textContent p; legendBody := v;
     gridLayer := gridLayer p; requests := requests p |}.

Definition withGridLayer (v : list rect) (p : page) : page :=
  {| currentDate := currentDate p; currentKind := currentKind p; times := times p;
     layerSelect_value := layerSelect_value p; dateInput_value := dateInput_value p;
     timeSlider_min := timeSlider_min p; timeSlider_max := timeSlider_max p;
     timeSlider_value := timeSlider_value p;
     timeLabel_textContent := timeLabel_textContent p;
     statusEl_textContent := statusEl_textContent p; legendBody := legendBody p;
     gridLayer := v; requests := requests p |}.

Definition withRequests (v : list string) (p : page) : page :=
  {| currentDate := currentDate p; currentKind := currentKind p; times := times p;
     layerSelect_value := layerSelect_value p; dateInput_value := dateInput_value p;
     timeSlider_min := timeSlider_min p; timeSlider_max := timeSlider_max p;
     timeSlider_value := timeSlider_value p;
     timeLabel_textContent := timeLabel_textContent p;
     statusEl_textContent := statusEl_textContent p; legendBody := legendBody p;
     gridLayer := gridLayer p; requests := v |}.

(** ** Computations that read and write the page and may throw *)

Inductive result (A : Type) : Type :=
| Return (a : A) (p : page)
| Throw (message : string) (p : page).

Arguments Return {A} a p.
Arguments Throw {A} message p.

Definition M (A : Type) : Type := page -> result A.

Definition ret {A : Type} (a : A) : M A := fun p => Return a p.

Definition bind {A B : Type} (c : M A) (k : A -> M B) : M B :=
  fun p =>
    match c p with
    | Return a p' => k a p'
    | Throw m p' => Throw m p'
    end.

Definition throw {A : Type} (message : string) : M A := fun p => Throw message p.

Definition get : M page := fun p => Return p p.

Definition modify (f : page -> page) : M unit := fun p => Return tt (f p).

(** [try { c } catch (e) { h(e.message) }] *)
Definition tryCatch {A : Type} (c : M A) (h : string -> M A) : M A :=
  fun p =>
    match c p with
    | Return a p' => Return a p'
    | Throw m p' => h m p'
    end.

Declare Scope js_scope.
Delimit Scope js_scope with js.
Notation "x <- c ;; k" := (bind c (fun x => k))
  (at level 61, c at next level, right associativity) : js_scope.
Notation "c ;; k" := (bind c (fun _ => k))
  (at level 61, right associativity) : js_scope.
Local Open Scope js_scope.


(** ** The network *)

(** What [res.json()] makes of the body. *)
Inductive body : Type :=
| Unparsable (message : string)
| Parsed (j : json).

(** What [fetch] makes of a request. *)
Inductive outcome : Type :=
| Failed (message : string)
| Response (status : Z) (b : body).

(** The outcome of a request, given the requests made before it. *)
Definition network : Type := list string -> string -> outcome.

(** [res.ok] *)
Definition ok (status : Z) : bool := andb (200 <=? status)%Z (status <=? 299)%Z.

Definition setStatus (msg : string) : M unit := modify (withStatus msg).

Definition fetchJson (net : network) (url : string) : M json :=
  p <- get ;;
  modify (withRequests (requests p ++ [url])) ;;
  match net (requests p) url with
  | Failed m => throw m
  | Response status b =>
      if negb (ok status) then throw ("HTTP " ++ Z_toString status ++ " " ++ url)
      else match b with
           | Unparsable m => throw m
           | Parsed j => ret j
           end
  end.

Definition loadLatestDate (net : network) : M string :=
  j <- fetchJson net "./data/latest.json" ;;
  match optGet j Json.date with
  | Some d => if String.eqb d "" then throw "latest.json missing date" else ret d
  | None => throw "latest.json missing date"
  end.

Definition Hawaiian (ymd : string) : string := ymd ++ "/manifest.json".

Definition loadManifest (net : network) (ymd : string) : M json :=
  fetchJson net ("./data/" ++ Hawaiian ymd).

Definition indexUrl (ymd kind : string) : string :=
  "./data/" ++ ymd ++ "/" ++ kind ++ "/index.json".

Definition gridUrl (ymd kind hhmm : string) : string :=
  "./data/" ++ ymd ++ "/" ++ kind ++ "/" ++ hhmm ++ ".json".

Definition loadLayerIndex (net : network) (ymd kind : string) : M json :=
  fetchJson net (indexUrl ymd kind).

Definition loadGrid (net : network) (ymd kind hhmm : string) : M json :=
  fetchJson net (gridUrl ymd kind hhmm).

(** ** Drawing *)

Definition nl : string := String (ascii_of_nat 10) EmptyString.
Definition quote : string := String (ascii_of_nat 34) EmptyString.
Definition enDash : string :=
  String (ascii_of_nat 226) (String (ascii_of_nat 128) (String (ascii_of_nat 147) EmptyString)).

(** The template assigned to [legendBody.innerHTML]. *)
Definition legendHtml (layer date time lo hi unit : string) : string :=
  nl ++ "    <div><b>Layer:</b> " ++ layer ++ "</div>" ++
  nl ++ "    <div><b>Date:</b> " ++ date ++ " (UTC)</div>" ++
  nl ++ "    <div><b>Time:</b> " ++ time ++ "</div>" ++
  nl ++ "    <div><b>Range:</b> " ++ lo ++ " " ++ enDash ++ " " ++ hi ++ " " ++ unit ++ "</div>" ++
  nl ++ "    <div style=" ++ quote ++ "margin-top:6px; opacity:0.9;" ++ quote ++
        ">Tip: hover cells for value</div>" ++
  nl ++ "  ".

(** The body of the loop of [drawGrid]: the rectangle of one cell. *)
Definition cellRect (dlat dlon : num) (unit : string) (vmin vmax : num)
    (c : Json.gridCell) : rect :=
  let lat1 := Json.lat c in
  let lon1 := Json.lon c in
  let lat2 := add (Json.lat c) dlat in
  let lon2 := add (Json.lon c) dlon in
  let val := Json.val c in
  {| south := lat1; west := lon1; north := lat2; east := lon2;
     stroke := false;
     fillColor := colorScale val vmin vmax;
     fillOpacity := Fin 1;
     tooltip := toFixed2 val ++ " " ++ unit;
     sticky := true |}.

(** [rect.addTo(gridLayer)] *)
Definition addTo (r : rect) (p : page) : page := withGridLayer (gridLayer p ++ [r]) p.

(** [gridLayer.clearLayers()] *)
Definition clearLayers : M unit := modify (withGridLayer []).

Definition drawGrid (grid indexMeta : json) : M unit :=
  clearLayers ;;
  let dlat := orElse (optGet (optGet indexMeta Json.cell) Json.dlat) (Fin 2) in
  let dlon := orElse (optGet (optGet indexMeta Json.cell) Json.dlon) (Fin 2) in
  let unit := orElse (optGet indexMeta Json.unit) "" in
  let vmin := orElse (optGet (optGet indexMeta Json.range) Json.vmin) (Fin 0) in
  let vmax := orElse (optGet (optGet indexMeta Json.range) Json.vmax) (Fin 1) in
  p <- get ;;
  match currentDate p with
  | None => throw "Cannot read properties of null (reading 'slice')"
  | Some ymd =>
      modify (withLegend (InnerHTML
        (legendHtml (toUpperCase (currentKind p)) (folderToISODate ymd)
           (timeLabel_textContent p) (toFixed2 vmin) (toFixed2 vmax) unit))) ;;
      let cells := orElse (optGet grid Json.cells) [] in
      modify (fun p0 => fold_left (fun q c => addTo (cellRect dlat dlon unit vmin vmax c) q) cells p0)
  end.

(** ** The render pipeline *)

(** The interpolation of [currentDate] in a template. *)
Definition dateText (d : option string) : string := orElse d "null".

(** [!currentDate] *)
Definition dateUnset (d : option string) : bool :=
  match d with Some s => String.eqb s "" | None => true end.

(** The [try] block of [refresh]. *)
Definition refreshTry (net : network) : M unit :=
  p <- get ;;
  setStatus ("Loading " ++ toUpperCase (currentKind p) ++ " " ++ dateText (currentDate p) ++ "...") ;;
  idx <- loadLayerIndex net (dateText (currentDate p)) (currentKind p) ;;
  modify (withTimes (timesOr idx)) ;;
  match timesOr idx with
  | Json.Arr (t :: ts) =>
      let times := t :: ts in
      modify (withSliderMin "0") ;;
      modify (withSliderMax (toString (IInt (Z.of_nat (List.length times) - 1)))) ;;
      p1 <- get ;;
      let i := sliderIndex (List.length times) (timeSlider_value p1) in
      modify (withSliderValue (toString i)) ;;
      match element times i with
      | None => throw "Cannot read properties of undefined (reading 'slice')"
      | Some hhmm =>
          modify (withTimeLabel (slice 0 2 hhmm ++ ":" ++ slice 2 4 hhmm ++ " UTC")) ;;
          grid <- loadGrid net (dateText (currentDate p1)) (currentKind p1) hhmm ;;
          drawGrid grid idx ;;
          setStatus ("OK (updated: " ++ strOr (optGet idx Json.updated_utc) "unknown" ++ ")")
      end
  | _ =>
      modify (withSliderMin "0") ;;
      modify (withSliderMax "0") ;;
      modify (withSliderValue "0") ;;
      modify (withTimeLabel "--:-- UTC") ;;
      clearLayers ;;
      p1 <- get ;;
      setStatus ("No times in " ++ currentKind p1 ++ "/index.json (yet)")
  end.

Definition missingNotice : string := "Data missing or not generated yet.".

(** The [catch] block of [refresh]. *)
Definition refreshCatch (message : string) : M unit :=
  clearLayers ;;
  setStatus ("Error: " ++ message) ;;
  modify (withLegend (TextContent missingNotice)).

Definition refresh (net : network) : M unit :=
  p <- get ;;
  if dateUnset (currentDate p) then ret tt
  else tryCatch (refreshTry net) refreshCatch.

Definition setDateFromLatest (net : network) : M unit :=
  ymd <- loadLatestDate net ;;
  modify (withCurrentDate (Some ymd)) ;;
  modify (withDateInput (folderToISODate ymd)).

(** ** Event handlers *)

Definition onDateInputChange (net : network) : M unit :=
  p <- get ;;
  modify (withCurrentDate (Some (ymdToFolder (Some (dateInput_value p))))) ;;
  modify (withSliderValue "0") ;;
  refresh net.

Definition onLayerSelectChange (net : network) : M unit :=
  p <- get ;;
  modify (withCurrentKind (layerSelect_value p)) ;;
  modify (withSliderValue "0") ;;
  refresh net.

Definition onTimeSliderInput (net : network) : M unit := refresh net.

Definition onTodayClick (net : network) : M unit :=
  setDateFromLatest net ;;
  modify (withSliderValue "0") ;;
  refresh net.

(** ** Boot *)

(** A [Date], by the fields of its UTC calendar reading and the offset of
    the browser's zone in minutes. *)
Record Date : Type := {
  utcFullYear : Z;
  utcMonth : Z;
  utcDate : Z;
  utcHours : Z;
  utcMinutes : Z;
  utcSeconds : Z;
  utcMilliseconds : Z;
  timezoneOffset : Z
}.

Definition isoYear (y : Z) : string :=
  if andb (0 <=? y)%Z (y <=? 9999)%Z then pad4 y
  else (if (y <? 0)%Z then "-" else "+") ++ pad6 (Z.abs y).

(** [d.toISOString()]: YYYY-MM-DDTHH:mm:ss.sssZ, read in UTC. *)
Definition toISOString (d : Date) : string :=
  isoYear (utcFullYear d) ++ "-" ++ pad2 (utcMonth d + 1) ++ "-" ++ pad2 (utcDate d)
    ++ "T" ++ pad2 (utcHours d) ++ ":" ++ pad2 (utcMinutes d) ++ ":" ++ pad2 (utcSeconds d)
    ++ "." ++ pad3 (utcMilliseconds d) ++ "Z".

Definition boot (net : network) (now : Date) : M unit :=
  tryCatch (setDateFromLatest net)
    (fun _ =>
       let d := now in
       let iso := slice 0 10 (toISOString d) in
       modify (withDateInput iso) ;;
       modify (withCurrentDate (Some (ymdToFolder (Some iso))))) ;;
  refresh net.

(** The page when the script starts; what the widgets hold comes from the
    document. *)
Definition initialPage (layer date smin smax svalue label status : string) (leg : legend) : page :=
  {| currentDate := None; currentKind := "tec"; times := Json.Arr [];
     layerSelect_value := layer; dateInput_value := date;
     timeSlider_min := smin; timeSlider_max := smax; timeSlider_value := svalue;
     timeLabel_textContent := label; statusEl_textContent := status;
     legendBody := leg; gridLayer := []; requests := [] |}.

(** * Vocabulary of the statements *)

(** ** Colours and dates *)


Definition isDigit (c : ascii) : bool :=
  let n := nat_of_ascii c in andb (48 <=? n)%nat (n <=? 57)%nat.

(** Eight digits: YYYYMMDD. *)
Definition isFolderDate (x : string) : bool :=
  match x with
  | String y1 (String y2 (String y3 (String y4 (String m1 (String m2
      (String d1 (String d2 EmptyString))))))) =>
      forallb isDigit [y1; y2; y3; y4; m1; m2; d1; d2]
  | _ => false
  end.

(** Digits and hyphens: YYYY-MM-DD. *)
Definition isISODate (y : string) : bool :=
  match y with
  | String y1 (String y2 (String y3 (String y4 (String h1 (String m1 (String m2
      (String h2 (String d1 (String d2 EmptyString))))))))) =>
      andb (forallb isDigit [y1; y2; y3; y4; m1; m2; d1; d2])
           (andb (Ascii.eqb h1 "-") (Ascii.eqb h2 "-"))
  | _ => false
  end.

(** ** Fetching and drawing *)

(** The ways a fetch fails, with the message of the error thrown. *)
Inductive fetchFails (url : string) : outcome -> string -> Prop :=
| fails_transport (m : string) :
    fetchFails url (Failed m) m
| fails_status (status : Z) (b : body) :
    ok status = false ->
    fetchFails url (Response status b) ("HTTP " ++ Z_toString status ++ " " ++ url)
| fails_unparsable (status : Z) (m : string) :
    ok status = true ->
    fetchFails url (Response status (Unparsable m)) m.

(** The page once [url] has been requested. *)
Definition requested (url : string) (p : page) : page :=
  withRequests (requests p ++ [url]) p.

(** The values [drawGrid] reads off the index, with their defaults. *)
Definition metaDlat (indexMeta : json) : num :=
  orElse (optGet (optGet indexMeta Json.cell) Json.dlat) (Fin 2).
Definition metaDlon (indexMeta : json) : num :=
  orElse (optGet (optGet indexMeta Json.cell) Json.dlon) (Fin 2).
Definition metaUnit (indexMeta : json) : string :=
  orElse (optGet indexMeta Json.unit) "".
Definition metaVmin (indexMeta : json) : num :=
  orElse (optGet (optGet indexMeta Json.range) Json.vmin) (Fin 0).
Definition metaVmax (indexMeta : json) : num :=
  orElse (optGet (optGet indexMeta Json.range) Json.vmax) (Fin 1).

(** The rectangles of a snapshot under an index. *)
Definition snapshotRects (grid indexMeta : json) : list rect :=
  map (cellRect (metaDlat indexMeta) (metaDlon indexMeta) (metaUnit indexMeta)
         (metaVmin indexMeta) (metaVmax indexMeta))
      (orElse (optGet grid Json.cells) []).

Definition drawnLegend (indexMeta : json) (ymd : string) (q : page) : legend :=
  InnerHTML (legendHtml (toUpperCase (currentKind q)) (folderToISODate ymd)
    (timeLabel_textContent q) (toFixed2 (metaVmin indexMeta)) (toFixed2 (metaVmax indexMeta))
    (metaUnit indexMeta)).

(** ** The course of a run *)

(** The pages a run of [refresh] goes through, for the page [p] it starts
    from and the date [ymd] selected there. *)

(** While the index is loading, and once it has been requested. *)
Definition loadingPage (p : page) (ymd : string) : page :=
  withStatus ("Loading " ++ toUpperCase (currentKind p) ++ " " ++ ymd ++ "...") p.

Definition indexRequested (p : page) (ymd : string) : page :=
  requested (indexUrl ymd (currentKind p)) (loadingPage p ymd).

(** At the early return of the branch without times. *)
Definition noTimesPage (p : page) (ymd : string) (idx : json) : page :=
  withStatus ("No times in " ++ currentKind p ++ "/index.json (yet)")
    (withGridLayer []
       (withTimeLabel "--:-- UTC"
          (withSliderValue "0" (withSliderMax "0" (withSliderMin "0"
             (withTimes (timesOr idx) (indexRequested p ymd))))))).

(** Once the slider has been clamped to the times [ts], once the label
    shows the time [hhmm], and once the snapshot has been requested. *)
Definition sliderSet (p : page) (ymd : string) (ts : list string) : page :=
  withSliderValue (toString (sliderIndex (List.length ts) (timeSlider_value p)))
    (withSliderMax (toString (IInt (Z.of_nat (List.length ts) - 1)))
       (withSliderMin "0" (withTimes (Json.Arr ts) (indexRequested p ymd)))).

Definition labelled (p : page) (ymd : string) (ts : list string) (hhmm : string) : page :=
  withTimeLabel (slice 0 2 hhmm ++ ":" ++ slice 2 4 hhmm ++ " UTC") (sliderSet p ymd ts).

Definition gridRequested (p : page) (ymd : string) (ts : list string) (hhmm : string) : page :=
  requested (gridUrl ymd (currentKind p) hhmm) (labelled p ymd ts hhmm).

(** After a complete render. *)
Definition renderedPage (p : page) (ymd : string) (idx grid : json)
    (ts : list string) (hhmm : string) : page :=
  withStatus ("OK (updated: " ++ strOr (optGet idx Json.updated_utc) "unknown" ++ ")")
    (withGridLayer (snapshotRects grid idx)
       (withLegend (drawnLegend idx ymd (gridRequested p ymd ts hhmm))
          (withGridLayer [] (gridRequested p ymd ts hhmm)))).

(** What the [catch] block makes of the page [q]. *)
Definition failedPage (message : string) (q : page) : page :=
  withLegend (TextContent missingNotice)
    (withStatus ("Error: " ++ message) (withGridLayer [] q)).

(** The four ways a run of [refresh] with a date set can end. *)
Inductive refreshEnds (net : network) (p : page) (ymd : string) : page -> Prop :=
| ends_index_failed (m : string) :
    fetchFails (indexUrl ymd (currentKind p))
      (net (requests p) (indexUrl ymd (currentKind p))) m ->
    refreshEnds net p ymd (failedPage m (indexRequested p ymd))
| ends_no_times (status : Z) (idx : json) :
    net (requests p) (indexUrl ymd (currentKind p)) = Response status (Parsed idx) ->
    ok status = true ->
    (forall t ts, timesOr idx <> Json.Arr (t :: ts)) ->
    refreshEnds net p ymd (noTimesPage p ymd idx)
| ends_grid_failed (status : Z) (idx : json) (t : string) (ts : list string)
    (hhmm m : string) :
    net (requests p) (indexUrl ymd (currentKind p)) = Response status (Parsed idx) ->
    ok status = true ->
    timesOr idx = Json.Arr (t :: ts) ->
    element (t :: ts) (sliderIndex (List.length (t :: ts)) (timeSlider_value p)) = Some hhmm ->
    fetchFails (gridUrl ymd (currentKind p) hhmm)
      (net (requests p ++ [indexUrl ymd (currentKind p)])%list
           (gridUrl ymd (currentKind p) hhmm)) m ->
    refreshEnds net p ymd (failedPage m (gridRequested p ymd (t :: ts) hhmm))
| ends_rendered (status : Z) (idx : json) (t : string) (ts : list string)
    (hhmm : string) (gstatus : Z) (grid : json) :
    net (requests p) (indexUrl ymd (currentKind p)) = Response status (Parsed idx) ->
    ok status = true ->
    timesOr idx = Json.Arr (t :: ts) ->
    element (t :: ts) (sliderIndex (List.length (t :: ts)) (timeSlider_value p)) = Some hhmm ->
    net (requests p ++ [indexUrl ymd (currentKind p)])%list
        (gridUrl ymd (currentKind p) hhmm) = Response gstatus (Parsed grid) ->
    ok gstatus = true ->
    refreshEnds net p ymd (renderedPage p ymd idx grid (t :: ts) hhmm).

(** A resolution step of a run fails with message [m]: the fetch of the
    index does, or the index is loaded with times and the fetch of the
    snapshot at the slider's time does. *)
Inductive resolutionFails (net : network) (p : page) (ymd : string) : string -> Prop :=
| index_step_fails (m : string) :
    fetchFails (indexUrl ymd (currentKind p))
      (net (requests p) (indexUrl ymd (currentKind p))) m ->
    resolutionFails net p ymd m
| snapshot_step_fails (status : Z) (idx : json) (t : string) (ts : list string)
    (hhmm m : string) :
    net (requests p) (indexUrl ymd (currentKind p)) = Response status (Parsed idx) ->
    ok status = true ->
    timesOr idx = Json.Arr (t :: ts) ->
    element (t :: ts) (sliderIndex (List.length (t :: ts)) (timeSlider_value p)) = Some hhmm ->
    fetchFails (gridUrl ymd (currentKind p) hhmm)
      (net (requests p ++ [indexUrl ymd (currentKind p)])%list
           (gridUrl ymd (currentKind p) hhmm)) m ->
    resolutionFails net p ymd m.

(** ** Boot *)

(** The date of [now] in UTC, hyphenated and as a folder name. *)
Definition utcISODate (now : Date) : string :=
  pad4 (utcFullYear now) ++ "-" ++ pad2 (utcMonth now + 1) ++ "-" ++ pad2 (utcDate now).

Definition utcFolder (now : Date) : string :=
  pad4 (utcFullYear now) ++ pad2 (utcMonth now + 1) ++ pad2 (utcDate now).

Definition latestUrl : string := "./data/latest.json".

(** The same instant seen from a browser in another zone. *)
Definition inZone (offset : Z) (d : Date) : Date :=
  {| utcFullYear := utcFullYear d; utcMonth := utcMonth d; utcDate := utcDate d;
     utcHours := utcHours d; utcMinutes := utcMinutes d; utcSeconds := utcSeconds d;
     utcMilliseconds := utcMilliseconds d; timezoneOffset := offset |}.

(** ** Sample data *)

(** A network that serves the listed documents and answers 404 for
    everything else. *)
Definition serve (routes : list (string * outcome)) : network :=
  fun _ url =>
    match find (fun r => String.eqb (fst r) url) routes with
    | Some r => snd r
    | None => Response 404 (Unparsable "Unexpected token < in JSON")
    end.

Definition withTimesUtc (v : Json.timesValue) (o : Json.object) : Json.object :=
  {| Json.date := Json.date o; Json.times_utc := Some v; Json.cell := Json.cell o;
     Json.range := Json.range o; Json.unit := Json.unit o;
     Json.updated_utc := Json.updated_utc o; Json.cells := Json.cells o |}.

Definition sampleIndex : Json.object :=
  {| Json.date := None;
     Json.times_utc := Some (Json.Arr ["0000"; "1200"]);
     Json.cell := None;
     Json.range := Some {| Json.vmin := Some (Fin 0); Json.vmax := Some (Fin 10) |};
     Json.unit := Some "TECU";
     Json.updated_utc := None;
     Json.cells := None |}.

Definition sampleGrid : Json.object :=
  {| Json.date := None; Json.times_utc := None; Json.cell := None; Json.range := None;
     Json.unit := None; Json.updated_utc := None;
     Json.cells := Some [ {| Json.lat := Fin 0; Json.lon := Fin 0; Json.val := Fin 5 |} ] |}.

(** The page with the date 2024-01-01 selected and the slider at 1. *)
Definition samplePage : page :=
  withSliderValue "1"
    (withCurrentDate (Some "20240101")
       (initialPage "tec" "2024-01-01" "0" "0" "0" "--:-- UTC" "" (TextContent ""))).

Definition sampleNet : network :=
  serve [ ("./data/20240101/tec/index.json", Response 200 (Parsed (Some sampleIndex)));
          ("./data/20240101/tec/1200.json", Response 200 (Parsed (Some sampleGrid))) ].

(** The index without its snapshots, and an index with no times. *)
Definition indexOnlyNet : network :=
  serve [ ("./data/20240101/tec/index.json", Response 200 (Parsed (Some sampleIndex))) ].

Definition emptyTimesNet : network :=
  serve [ ("./data/20240101/tec/index.json",
           Response 200 (Parsed (Some (withTimesUtc (Json.Arr []) sampleIndex)))) ].



(** The third of November 2025, 23:30 UTC, in a browser nine hours ahead
    of UTC, where the local date is already the fourth. *)
Definition sampleNow : Date :=
  {| utcFullYear := 2025; utcMonth := 10; utcDate := 3;
     utcHours := 23; utcMinutes := 30; utcSeconds := 0; utcMilliseconds := 0;
     timezoneOffset := -540 |}.

Definition bootPage : page :=
  initialPage "tec" "" "0" "100" "50" "--:-- UTC" "" (TextContent "").

(** * Vocabulary of the further properties *)

(** No character of [s] is a hyphen. *)
Fixpoint hyphenFree (s : string) : bool :=
  match s with
  | EmptyString => true
  | String c r => andb (negb (Ascii.eqb c "-")) (hyphenFree r)
  end.

(** The label of the time [hhmm]. *)
Definition timeLabelOf (hhmm : string) : string :=
  slice 0 2 hhmm ++ ":" ++ slice 2 4 hhmm ++ " UTC".

(** The value of the decimal digits [d], read after the value [acc]. *)
Fixpoint uintValue (acc : Z) (d : Decimal.uint) : Z :=
  match d with
  | Decimal.Nil => acc
  | Decimal.D0 l => uintValue (10 * acc + 0) l
  | Decimal.D1 l => uintValue (10 * acc + 1) l
  | Decimal.D2 l => uintValue (10 * acc + 2) l
  | Decimal.D3 l => uintValue (10 * acc + 3) l
  | Decimal.D4 l => uintValue (10 * acc + 4) l
  | Decimal.D5 l => uintValue (10 * acc + 5) l
  | Decimal.D6 l => uintValue (10 * acc + 6) l
  | Decimal.D7 l => uintValue (10 * acc + 7) l
  | Decimal.D8 l => uintValue (10 * acc + 8) l
  | Decimal.D9 l => uintValue (10 * acc + 9) l
  end.

(** The largest length of an array. *)
Definition maxArrayLength : Z := 2 ^ 32 - 1.

(** A network that serves the pointer to 2024-01-01, the index of that
    date and its first snapshot. *)
Definition latestNet : network :=
  serve [ (latestUrl, Response 200 (Parsed (Some (
            {| Json.date := Some "20240101"; Json.times_utc := None; Json.cell := None;
               Json.range := None; Json.unit := None; Json.updated_utc := None;
               Json.cells := None |}))));
          ("./data/20240101/tec/index.json", Response 200 (Parsed (Some sampleIndex)));
          ("./data/20240101/tec/0000.json", Response 200 (Parsed (Some sampleGrid))) ].

(** * Properties *)

(** ** Evaluations *)

Example colorScale_mid : colorScale (Fin 5) (Fin 0) (Fin 10) = "rgba(128,0,128,0.55)".
Proof. vm_compute. reflexivity. Qed.

Example colorScale_low : colorScale (Fin (-3)) (Fin 0) (Fin 10) = "rgba(0,0,255,0.55)".
Proof. vm_compute. reflexivity. Qed.

Example toFixed2_five : toFixed2 (Fin 5) = "5.00".
Proof. vm_compute. reflexivity. Qed.

Example toFixed2_neg : toFixed2 (Fin (-(5 # 4))) = "-1.25".
Proof. vm_compute. reflexivity. Qed.

Example parseInt_plain : parseInt "7" = IInt 7.
Proof. reflexivity. Qed.

Example parseInt_junk : parseInt "  -12px" = IInt (-12).
Proof. reflexivity. Qed.

Example parseInt_nan : parseInt "abc" = INaN.
Proof. reflexivity. Qed.

Example sliderIndex_high : sliderIndex 3 "9" = IInt 2.
Proof. reflexivity. Qed.

Example sliderIndex_neg : sliderIndex 3 "-4" = IInt 0.
Proof. reflexivity. Qed.

(** ** Arithmetic of [num] *)

Section NumFacts.

Local Open Scope Q_scope.















End NumFacts.

(** ** The colour scale *)

Section ColorScale.

Local Open Scope Q_scope.




End ColorScale.




Example colorScale_inverted_low : colorScale (Fin 0) (Fin 10) (Fin 0) = "rgba(255,0,0,0.55)".
Proof. vm_compute. reflexivity. Qed.

Example colorScale_inverted_high : colorScale (Fin 10) (Fin 10) (Fin 0) = "rgba(0,0,255,0.55)".
Proof. vm_compute. reflexivity. Qed.

(** When the width of the range overflows, the scale of a value at the
    top of the range is NaN. *)
Example colorScale_overflowing_width :
  let big := Fin (inject_Z (2 ^ 1023)) in
  ltb (neg big) big = true /\
  isFinite (sub big (neg big)) = false /\
  colorScale (Fin 0) (neg big) big = "rgba(0,0,255,0.55)" /\
  colorScale big (neg big) big = "rgba(NaN,0,NaN,0.55)".
Proof. vm_compute. repeat split. Qed.

(** C7: a value that is not finite, NaN or an infinity, is given the fully
    transparent colour, whatever the range. *)
Theorem colorScale_nonfinite_transparent (v vmin vmax : num) :
  isFinite v = false -> colorScale v vmin vmax = "rgba(0,0,0,0)".
Proof.
  intros H. unfold colorScale. rewrite H. reflexivity.
Qed.

Lemma colorScale_nonfinite_transparent_witness :
  isFinite NaN = false /\ colorScale NaN (Fin 0) (Fin 1) = "rgba(0,0,0,0)".
Proof.
  split; [reflexivity | apply colorScale_nonfinite_transparent; reflexivity].
Defined.

Section DegenerateRange.

Local Open Scope Q_scope.




End DegenerateRange.



(** ** Date conversions *)

Lemma digit_not_hyphen (c : ascii) : isDigit c = true -> Ascii.eqb c "-" = false.
Proof.
  intros H. destruct (Ascii.eqb_spec c "-") as [-> |]; [discriminate H | reflexivity].
Qed.

Lemma removeHyphens_digit (c : ascii) (s : string) :
  isDigit c = true -> removeHyphens (String c s) = String c (removeHyphens s).
Proof. intros H. simpl. now rewrite (digit_not_hyphen c H). Qed.

Ltac split_digits H :=
  unfold isFolderDate, isISODate in H; simpl in H;
  repeat match goal with
  | G : andb _ _ = true |- _ => apply andb_prop in G; destruct G
  end.

Lemma folder_of_digits (a b c d e f g h : ascii) :
  forallb isDigit [a; b; c; d; e; f; g; h] = true ->
  isFolderDate (String a (String b (String c (String d (String e (String f
     (String g (String h EmptyString)))))))) = true /\
  ymdToFolder (Some (String a (String b (String c (String d (String "-" (String e (String f
     (String "-" (String g (String h EmptyString)))))))))))
  = String a (String b (String c (String d (String e (String f
     (String g (String h EmptyString))))))).
Proof.
  intros H. split; [exact H |].
  split_digits H. unfold ymdToFolder.
  repeat (rewrite removeHyphens_digit by assumption).
  change (removeHyphens (String "-" ?s)) with (removeHyphens s).
  repeat (rewrite removeHyphens_digit by assumption).
  change (removeHyphens (String "-" ?s)) with (removeHyphens s).
  repeat (rewrite removeHyphens_digit by assumption).
  reflexivity.
Qed.

(** C9: on well-formed dates the two conversions are inverse to each
    other: eight digits go to the hyphenated form and back unchanged, and
    a hyphenated date goes to eight digits and back unchanged. *)
Theorem date_conversions_inverse :
  (forall x, isFolderDate x = true ->
     isISODate (folderToISODate x) = true /\
     ymdToFolder (Some (folderToISODate x)) = x) /\
  (forall y, isISODate y = true ->
     isFolderDate (ymdToFolder (Some y)) = true /\
     folderToISODate (ymdToFolder (Some y)) = y).
Proof.
  split.
  - intros x H.
    do 8 (destruct x as [| ? x]; [compute in H; discriminate H |]).
    destruct x; [| compute in H; discriminate H].
    split.
    + unfold isFolderDate in H. simpl in H |- *. now rewrite H.
    + split_digits H.
      unfold ymdToFolder, folderToISODate, slice. simpl substring. simpl append.
      repeat (rewrite removeHyphens_digit by assumption).
      change (removeHyphens (String "-" ?s)) with (removeHyphens s).
      repeat (rewrite removeHyphens_digit by assumption).
      change (removeHyphens (String "-" ?s)) with (removeHyphens s).
      repeat (rewrite removeHyphens_digit by assumption).
      reflexivity.
  - intros y H.
    do 10 (destruct y as [| ? y]; [compute in H; discriminate H |]).
    destruct y; [| compute in H; discriminate H].
    pose proof H as H0.
    split_digits H0.
    destruct (Ascii.eqb_spec a3 "-") as [-> |]; [| discriminate].
    destruct (Ascii.eqb_spec a6 "-") as [-> |]; [| discriminate].
    assert (D : forallb isDigit [a; a0; a1; a2; a4; a5; a7; a8] = true).
    { unfold isISODate in H. apply andb_prop in H. exact (proj1 H). }
    destruct (folder_of_digits a a0 a1 a2 a4 a5 a7 a8 D) as [W E].
    rewrite E. split; [exact W | reflexivity].
Qed.

Lemma date_conversions_inverse_witness :
  ymdToFolder (Some (folderToISODate "20240131")) = "20240131" /\
  folderToISODate (ymdToFolder (Some "2024-01-31")) = "2024-01-31".
Proof.
  destruct date_conversions_inverse as [F I]. split.
  - apply (F "20240131"). reflexivity.
  - apply (I "2024-01-31"). reflexivity.
Defined.

(** ** Fetching *)

Lemma fetchJson_fails (net : network) (url : string) (p : page) (m : string) :
  fetchFails url (net (requests p) url) m ->
  fetchJson net url p = Throw m (requested url p).
Proof.
  intros H. unfold fetchJson, bind, get, modify.
  inversion H as [m' E | status b Hok E | status m' Hok E]; subst.
  - reflexivity.
  - rewrite Hok. reflexivity.
  - rewrite Hok. reflexivity.
Qed.

Lemma fetchJson_parsed (net : network) (url : string) (p : page) (status : Z) (j : json) :
  net (requests p) url = Response status (Parsed j) -> ok status = true ->
  fetchJson net url p = Return j (requested url p).
Proof.
  intros E Hok. unfold fetchJson, bind, get, modify. rewrite E, Hok. reflexivity.
Qed.

(** A fetch either fails in one of the three ways or returns the parsed
    document. *)
Lemma fetchJson_cases (net : network) (url : string) (p : page) :
  (exists m, fetchFails url (net (requests p) url) m /\
             fetchJson net url p = Throw m (requested url p)) \/
  (exists status j, net (requests p) url = Response status (Parsed j) /\ ok status = true /\
             fetchJson net url p = Return j (requested url p)).
Proof.
  destruct (net (requests p) url) as [m | status b] eqn:E.
  - left. exists m. split; [constructor |].
    apply fetchJson_fails. rewrite E. constructor.
  - destruct (ok status) eqn:Hok.
    + destruct b as [m | j].
      * left. exists m. split; [now constructor |].
        apply fetchJson_fails. rewrite E. now constructor.
      * right. exists status, j. split; [reflexivity |]. split; [exact Hok |].
        now apply (fetchJson_parsed net url p status j).
    + left. eexists. split; [now constructor |].
      apply fetchJson_fails. rewrite E. now constructor.
Qed.

(** ** The time slider *)

Lemma sliderIndex_in_range (len : nat) (sliderValue : string) :
  (0 < len)%nat ->
  exists i : Z, sliderIndex len sliderValue = IInt i /\ (0 <= i <= Z.of_nat len - 1)%Z.
Proof.
  intros Hlen. unfold sliderIndex.
  destruct (parseInt (if String.eqb sliderValue "" then "0" else sliderValue)) as [| | |z];
    simpl.
  - exists (Z.max 0 (Z.min (Z.of_nat len - 1) 0)). split; [reflexivity | lia].
  - exists (Z.max 0 (Z.min (Z.of_nat len - 1) 0)). split; [reflexivity | lia].
  - exists (Z.max 0 (Z.min (Z.of_nat len - 1) 0)). split; [reflexivity | lia].
  - exists (Z.max 0 (Z.min (Z.of_nat len - 1) z)). split; [reflexivity | lia].
Qed.

Lemma element_in_range {A : Type} (arr : list A) (i : Z) :
  (0 <= i <= Z.of_nat (List.length arr) - 1)%Z ->
  exists a, element arr (IInt i) = Some a /\ nth_error arr (Z.to_nat i) = Some a.
Proof.
  intros Hi. unfold element.
  destruct (Z.ltb_spec i 0) as [Hneg | _]; [lia |].
  destruct (nth_error arr (Z.to_nat i)) as [a |] eqn:E.
  - exists a. split; reflexivity.
  - apply nth_error_None in E. lia.
Qed.

(** ** Drawing *)

Lemma fold_addTo (f : Json.gridCell -> rect) (cells : list Json.gridCell) (q : page) :
  fold_left (fun q0 c => addTo (f c) q0) cells q
  = withGridLayer (gridLayer q ++ map f cells) q.
Proof.
  revert q. induction cells as [| c cs IH]; intros q; simpl.
  - rewrite app_nil_r. destruct q; reflexivity.
  - rewrite IH. unfold addTo. simpl. rewrite <- app_assoc. reflexivity.
Qed.

Lemma drawGrid_dated (grid indexMeta : json) (q : page) (ymd : string) :
  currentDate q = Some ymd ->
  drawGrid grid indexMeta q
  = Return tt (withGridLayer (snapshotRects grid indexMeta)
                 (withLegend (drawnLegend indexMeta ymd q) (withGridLayer [] q))).
Proof.
  intros Hd. unfold drawGrid, clearLayers, bind, get, modify.
  change (currentDate (withGridLayer [] q)) with (currentDate q).
  rewrite Hd. rewrite fold_addTo. reflexivity.
Qed.

Lemma drawGrid_undated (grid indexMeta : json) (q : page) :
  currentDate q = None ->
  drawGrid grid indexMeta q
  = Throw "Cannot read properties of null (reading 'slice')" (withGridLayer [] q).
Proof.
  intros Hd. unfold drawGrid, clearLayers, bind, get, modify.
  change (currentDate (withGridLayer [] q)) with (currentDate q).
  rewrite Hd. reflexivity.
Qed.

(** ** The render pipeline *)

Section Refresh.

Variable net : network.
Variable p : page.
Variable ymd : string.
Hypothesis date_set : currentDate p = Some ymd.

Lemma refreshCatch_run (message : string) (q : page) :
  refreshCatch message q = Return tt (failedPage message q).
Proof. reflexivity. Qed.

Lemma refresh_enters_try :
  ymd <> "" -> refresh net p = tryCatch (refreshTry net) refreshCatch p.
Proof.
  intros Hne. unfold refresh, bind, get. rewrite date_set. simpl.
  destruct (String.eqb_spec ymd ""); [contradiction | reflexivity].
Qed.

Lemma refreshTry_index_fails (m : string) :
  fetchFails (indexUrl ymd (currentKind p))
    (net (requests p) (indexUrl ymd (currentKind p))) m ->
  refreshTry net p = Throw m (indexRequested p ymd).
Proof.
  intros H. unfold refreshTry, bind, get, setStatus, modify, loadLayerIndex.
  rewrite date_set. simpl dateText.
  rewrite (fetchJson_fails net _ _ m); [reflexivity | exact H].
Qed.

Section IndexLoaded.

Variable status : Z.
Variable idx : json.
Hypothesis index_response :
  net (requests p) (indexUrl ymd (currentKind p)) = Response status (Parsed idx).
Hypothesis index_ok : ok status = true.

Lemma refreshTry_loaded :
  refreshTry net p
  = (modify (withTimes (timesOr idx)) ;;
     match timesOr idx with
     | Json.Arr (t :: ts) =>
         let times := t :: ts in
         modify (withSliderMin "0") ;;
         modify (withSliderMax (toString (IInt (Z.of_nat (List.length times) - 1)))) ;;
         p1 <- get ;;
         let i := sliderIndex (List.length times) (timeSlider_value p1) in
         modify (withSliderValue (toString i)) ;;
         match element times i with
         | None => throw "Cannot read properties of undefined (reading 'slice')"
         | Some hhmm =>
             modify (withTimeLabel (slice 0 2 hhmm ++ ":" ++ slice 2 4 hhmm ++ " UTC")) ;;
             grid <- loadGrid net (dateText (currentDate p1)) (currentKind p1) hhmm ;;
             drawGrid grid idx ;;
             setStatus ("OK (updated: " ++ strOr (optGet idx Json.updated_utc) "unknown" ++ ")")
         end
     | _ =>
         modify (withSliderMin "0") ;;
         modify (withSliderMax "0") ;;
         modify (withSliderValue "0") ;;
         modify (withTimeLabel "--:-- UTC") ;;
         clearLayers ;;
         p1 <- get ;;
         setStatus ("No times in " ++ currentKind p1 ++ "/index.json (yet)")
     end)%js (indexRequested p ymd).
Proof.
  unfold refreshTry at 1. unfold bind at 1 2 3, get at 1, setStatus at 1, modify at 1,
    loadLayerIndex.
  rewrite date_set. simpl dateText.
  rewrite (fetchJson_parsed net _ _ status idx); [reflexivity | exact index_response | exact index_ok].
Qed.

Lemma refreshTry_no_times :
  (forall t ts, timesOr idx <> Json.Arr (t :: ts)) ->
  refreshTry net p = Return tt (noTimesPage p ymd idx).
Proof.
  intros Hnone. rewrite refreshTry_loaded.
  unfold noTimesPage. destruct (timesOr idx) as [[| t ts] | v] eqn:E.
  - reflexivity.
  - now destruct (Hnone t ts).
  - reflexivity.
Qed.

Section TimesKnown.

Variable t : string.
Variable ts : list string.
Hypothesis times_known : timesOr idx = Json.Arr (t :: ts).

(** The time the slider points at. *)
Lemma slider_time :
  exists (i : Z) (hhmm : string),
    sliderIndex (List.length (t :: ts)) (timeSlider_value p) = IInt i /\
    (0 <= i <= Z.of_nat (List.length (t :: ts)) - 1)%Z /\
    element (t :: ts) (IInt i) = Some hhmm /\
    nth_error (t :: ts) (Z.to_nat i) = Some hhmm.
Proof.
  destruct (sliderIndex_in_range (List.length (t :: ts)) (timeSlider_value p)) as (i & Ei & Hi);
    [simpl; lia |].
  destruct (element_in_range (t :: ts) i Hi) as (hhmm & Eh & En).
  exists i, hhmm. auto.
Qed.

Lemma refreshTry_to_grid (hhmm : string) :
  element (t :: ts) (sliderIndex (List.length (t :: ts)) (timeSlider_value p)) = Some hhmm ->
  refreshTry net p
  = (grid <- loadGrid net ymd (currentKind p) hhmm ;;
     drawGrid grid idx ;;
     setStatus ("OK (updated: " ++ strOr (optGet idx Json.updated_utc) "unknown" ++ ")"))%js
    (labelled p ymd (t :: ts) hhmm).
Proof.
  intros Eh. rewrite refreshTry_loaded. rewrite times_known.
  unfold bind at 1 2 3 4 5, modify at 1 2 3 4, get at 1. cbv zeta.
  change (timeSlider_value (withSliderMax _ (withSliderMin _ (withTimes _ (indexRequested p ymd)))))
    with (timeSlider_value p).
  rewrite Eh. unfold bind at 1, modify at 1.
  change (currentDate (withSliderMax _ (withSliderMin _ (withTimes _ (indexRequested p ymd)))))
    with (currentDate p).
  change (currentKind (withSliderMax _ (withSliderMin _ (withTimes _ (indexRequested p ymd)))))
    with (currentKind p).
  rewrite date_set. reflexivity.
Qed.

Lemma refreshTry_grid_fails (hhmm m : string) :
  element (t :: ts) (sliderIndex (List.length (t :: ts)) (timeSlider_value p)) = Some hhmm ->
  fetchFails (gridUrl ymd (currentKind p) hhmm)
    (net ((requests p ++ [indexUrl ymd (currentKind p)])%list) (gridUrl ymd (currentKind p) hhmm)) m ->
  refreshTry net p = Throw m (gridRequested p ymd (t :: ts) hhmm).
Proof.
  intros Eh Hf. rewrite (refreshTry_to_grid hhmm Eh).
  unfold bind at 1, loadGrid.
  rewrite (fetchJson_fails net _ _ m); [reflexivity | exact Hf].
Qed.

Lemma refreshTry_rendered (hhmm : string) (gstatus : Z) (grid : json) :
  element (t :: ts) (sliderIndex (List.length (t :: ts)) (timeSlider_value p)) = Some hhmm ->
  net ((requests p ++ [indexUrl ymd (currentKind p)])%list) (gridUrl ymd (currentKind p) hhmm)
    = Response gstatus (Parsed grid) ->
  ok gstatus = true ->
  refreshTry net p = Return tt (renderedPage p ymd idx grid (t :: ts) hhmm).
Proof.
  intros Eh Hr Hok. rewrite (refreshTry_to_grid hhmm Eh).
  unfold bind at 1, loadGrid.
  rewrite (fetchJson_parsed net _ _ gstatus grid); [| exact Hr | exact Hok].
  unfold bind at 1.
  rewrite (drawGrid_dated grid idx _ ymd); [reflexivity |].
  exact date_set.
Qed.

End TimesKnown.

End IndexLoaded.

End Refresh.

Lemma refresh_ends (net : network) (p : page) (ymd : string) :
  currentDate p = Some ymd -> ymd <> "" ->
  exists p', refresh net p = Return tt p' /\ refreshEnds net p ymd p'.
Proof.
  intros Hd Hne. rewrite (refresh_enters_try net p ymd Hd Hne). unfold tryCatch.
  destruct (fetchJson_cases net (indexUrl ymd (currentKind p)) p)
    as [(m & Hf & _) | (status & idx & Hr & Hok & _)].
  - rewrite (refreshTry_index_fails net p ymd Hd m Hf).
    eexists. split; [reflexivity |]. now constructor.
  - destruct (timesOr idx) as [[| t ts] | v] eqn:Et.
    + rewrite (refreshTry_no_times net p ymd Hd status idx Hr Hok) by (rewrite Et; congruence).
      eexists. split; [reflexivity |]. apply (ends_no_times _ _ _ status); auto.
      rewrite Et; congruence.
    + destruct (slider_time p t ts) as (i & hhmm & Ei & Hi & Eh & _).
      rewrite <- Ei in Eh.
      destruct (fetchJson_cases net (gridUrl ymd (currentKind p) hhmm)
                  (labelled p ymd (t :: ts) hhmm))
        as [(m & Hf & _) | (gstatus & grid & Hg & Hgok & _)].
      * rewrite (refreshTry_grid_fails net p ymd Hd status idx Hr Hok t ts Et hhmm m Eh Hf).
        eexists. split; [reflexivity |]. now apply (ends_grid_failed _ _ _ status idx).
      * rewrite (refreshTry_rendered net p ymd Hd status idx Hr Hok t ts Et hhmm gstatus grid Eh Hg Hgok).
        eexists. split; [reflexivity |]. now apply (ends_rendered _ _ _ status idx t ts hhmm gstatus).
    + rewrite (refreshTry_no_times net p ymd Hd status idx Hr Hok) by (rewrite Et; congruence).
      eexists. split; [reflexivity |]. apply (ends_no_times _ _ _ status); auto.
      rewrite Et; congruence.
Qed.

(** A run of [refresh] never throws. *)
Lemma refresh_returns (net : network) (p : page) :
  exists p', refresh net p = Return tt p'.
Proof.
  destruct (currentDate p) as [ymd |] eqn:Hd.
  - destruct (String.eqb_spec ymd "") as [-> | Hne].
    + exists p. unfold refresh, bind, get. rewrite Hd. reflexivity.
    + destruct (refresh_ends net p ymd Hd Hne) as (p' & E & _). now exists p'.
  - exists p. unfold refresh, bind, get. rewrite Hd. reflexivity.
Qed.

(** A run of [refresh] leaves the selected date and layer as they are, and
    requests the index first. *)
Lemma refreshEnds_selection (net : network) (p : page) (ymd : string) (p' : page) :
  refreshEnds net p ymd p' ->
  currentDate p' = currentDate p /\ currentKind p' = currentKind p /\
  dateInput_value p' = dateInput_value p /\
  exists rest, requests p' = (requests p ++ indexUrl ymd (currentKind p) :: rest)%list.
Proof.
  intros H. destruct H; repeat split; try reflexivity.
  - exists []. reflexivity.
  - exists []. reflexivity.
  - exists [gridUrl ymd (currentKind p) hhmm]. simpl. now rewrite <- app_assoc.
  - exists [gridUrl ymd (currentKind p) hhmm]. simpl. now rewrite <- app_assoc.
Qed.



(** C2: when the fetch of the index or of the snapshot fails, by a
    transport failure, a status that is no success or a body that is no
    JSON, the run returns without throwing, the grid is cleared, the status
    reads Error followed by the message, the legend shows the notice of
    missing data, and the selected date and layer are unchanged. *)
Theorem refresh_failure_clears (net : network) (p : page) (ymd m : string) :
  currentDate p = Some ymd -> ymd <> "" ->
  resolutionFails net p ymd m ->
  exists p', refresh net p = Return tt p' /\
    gridLayer p' = [] /\
    statusEl_textContent p' = "Error: " ++ m /\
    legendBody p' = TextContent "Data missing or not generated yet." /\
    currentDate p' = currentDate p /\ currentKind p' = currentKind p.
Proof.
  intros Hd Hne Hf. rewrite (refresh_enters_try net p ymd Hd Hne). unfold tryCatch.
  destruct Hf as [m Hf | status idx t ts hhmm m Hr Hok Et Eh Hf].
  - rewrite (refreshTry_index_fails net p ymd Hd m Hf).
    eexists. split; [reflexivity |]. repeat split.
  - rewrite (refreshTry_grid_fails net p ymd Hd status idx Hr Hok t ts Et hhmm m Eh Hf).
    eexists. split; [reflexivity |]. repeat split.
Qed.

(** C4: an index whose list of times is empty ends the run in the [try]
    block, without a throw and without a request for a snapshot: the grid
    is cleared, the label shows the placeholder, the status says that
    there are no times, and the legend is left as it was. *)
Theorem refresh_empty_times (net : network) (p : page) (ymd : string)
    (status : Z) (idx : json) :
  currentDate p = Some ymd -> ymd <> "" ->
  net (requests p) (indexUrl ymd (currentKind p)) = Response status (Parsed idx) ->
  ok status = true ->
  optGet idx Json.times_utc = Some (Json.Arr []) ->
  exists p', refreshTry net p = Return tt p' /\ refresh net p = Return tt p' /\
    gridLayer p' = [] /\
    timeLabel_textContent p' = "--:-- UTC" /\
    statusEl_textContent p' = "No times in " ++ currentKind p ++ "/index.json (yet)" /\
    requests p' = (requests p ++ [indexUrl ymd (currentKind p)])%list /\
    legendBody p' = legendBody p /\
    times p' = Json.Arr [] /\
    timeSlider_min p' = "0" /\ timeSlider_max p' = "0" /\ timeSlider_value p' = "0" /\
    currentDate p' = currentDate p /\ currentKind p' = currentKind p.
Proof.
  intros Hd Hne Hr Hok Ht.
  assert (Et : timesOr idx = Json.Arr []) by (unfold timesOr; now rewrite Ht).
  assert (Htry : refreshTry net p = Return tt (noTimesPage p ymd idx)).
  { apply (refreshTry_no_times net p ymd Hd status idx Hr Hok). rewrite Et. congruence. }
  exists (noTimesPage p ymd idx). split; [exact Htry |].
  split.
  - rewrite (refresh_enters_try net p ymd Hd Hne). unfold tryCatch. now rewrite Htry.
  - unfold noTimesPage. rewrite Et. repeat split.
Qed.


(** The scenario of one cell of value 5 in the range 0 to 10. *)
Example refresh_sample_render :
  exists p', refresh sampleNet samplePage = Return tt p' /\
    statusEl_textContent p' = "OK (updated: unknown)" /\
    timeLabel_textContent p' = "12:00 UTC" /\
    gridLayer p' =
      [ {| south := Fin 0; west := Fin 0; north := Fin 2; east := Fin 2;
           stroke := false; fillColor := "rgba(128,0,128,0.55)"; fillOpacity := Fin 1;
           tooltip := "5.00 TECU"; sticky := true |} ].
Proof. eexists. split; [vm_compute; reflexivity |]. repeat split. Qed.

(** The scenario of an index answered with 404. *)
Example refresh_sample_404 :
  exists p', refresh (serve []) samplePage = Return tt p' /\
    gridLayer p' = [] /\
    statusEl_textContent p' = "Error: HTTP 404 ./data/20240101/tec/index.json" /\
    legendBody p' = TextContent "Data missing or not generated yet.".
Proof. eexists. split; [vm_compute; reflexivity |]. repeat split. Qed.


Lemma refresh_failure_clears_witness :
  exists p', refresh indexOnlyNet samplePage = Return tt p' /\
    gridLayer p' = [] /\
    statusEl_textContent p' = "Error: HTTP 404 ./data/20240101/tec/1200.json" /\
    legendBody p' = TextContent "Data missing or not generated yet." /\
    currentDate p' = Some "20240101" /\ currentKind p' = "tec".
Proof.
  apply (refresh_failure_clears indexOnlyNet samplePage "20240101"
           "HTTP 404 ./data/20240101/tec/1200.json");
    [reflexivity | discriminate |].
  apply (snapshot_step_fails indexOnlyNet samplePage "20240101"
           200 (Some sampleIndex) "0000" ["1200"] "1200");
    [reflexivity | reflexivity | reflexivity | reflexivity |].
  apply (fails_status (gridUrl "20240101" "tec" "1200") 404). reflexivity.
Defined.

Lemma refresh_empty_times_witness :
  exists p', refreshTry emptyTimesNet samplePage = Return tt p' /\
    refresh emptyTimesNet samplePage = Return tt p' /\
    gridLayer p' = [] /\
    timeLabel_textContent p' = "--:-- UTC" /\
    statusEl_textContent p' = "No times in tec/index.json (yet)" /\
    requests p' = [indexUrl "20240101" "tec"] /\
    legendBody p' = TextContent "" /\
    times p' = Json.Arr [] /\
    timeSlider_min p' = "0" /\ timeSlider_max p' = "0" /\ timeSlider_value p' = "0" /\
    currentDate p' = Some "20240101" /\ currentKind p' = "tec".
Proof.
  apply (refresh_empty_times emptyTimesNet samplePage "20240101" 200
           (Some (withTimesUtc (Json.Arr []) sampleIndex)));
    [reflexivity | discriminate | reflexivity | reflexivity | reflexivity].
Defined.


(** ** Loading the index *)




(** ** Boot *)

Lemma digitChar_isDigit (d : Z) : isDigit (digitChar d) = true.
Proof.
  unfold isDigit, digitChar.
  assert (H : (Z.to_nat (d mod 10) < 10)%nat).
  { pose proof (Z.mod_pos_bound d 10 eq_refl). lia. }
  rewrite nat_ascii_embedding by lia.
  apply andb_true_intro. split; apply Nat.leb_le; lia.
Qed.

Lemma toISOString_date (now : Date) :
  (0 <= utcFullYear now <= 9999)%Z ->
  slice 0 10 (toISOString now) = utcISODate now.
Proof.
  intros Hy. unfold toISOString, isoYear.
  replace (andb (0 <=? utcFullYear now)%Z (utcFullYear now <=? 9999)%Z) with true
    by (symmetry; apply andb_true_intro; split; apply Z.leb_le; lia).
  reflexivity.
Qed.

Lemma utcFolder_wellformed (now : Date) :
  isFolderDate (utcFolder now) = true /\
  ymdToFolder (Some (utcISODate now)) = utcFolder now.
Proof.
  unfold utcFolder, utcISODate, pad4, pad3, pad2. cbn [append].
  apply folder_of_digits.
  cbn [forallb]. now rewrite !digitChar_isDigit.
Qed.

(** The zone of the browser has no part in the boot. *)
Lemma boot_ignores_zone (net : network) (now : Date) (offset : Z) :
  boot net (inZone offset now) = boot net now.
Proof. reflexivity. Qed.

Lemma folderDate_nonempty (x : string) : isFolderDate x = true -> x <> "".
Proof. intros H ->. discriminate H. Qed.

Lemma loadLatestDate_throws (net : network) (p : page) (m : string) (p1 : page) :
  loadLatestDate net p = Throw m p1 -> p1 = requested latestUrl p.
Proof.
  unfold loadLatestDate, bind. intros H.
  destruct (fetchJson_cases net latestUrl p) as [(m' & _ & E) | (status & j & _ & _ & E)];
    unfold latestUrl in E; rewrite E in H.
  - now inversion H.
  - destruct (optGet j Json.date) as [d |]; [destruct (String.eqb d "") |];
      unfold throw, ret in H; now inversion H.
Qed.

(** C5: when the latest date cannot be loaded at boot, the catch block
    selects the calendar date of the current instant in UTC, whatever the
    zone of the browser, shows it in the date input, and the run of
    [refresh] that follows requests the index of that date. *)
Theorem boot_falls_back_to_utc_date (net : network) (now : Date) (p : page)
    (m : string) (p1 : page) :
  loadLatestDate net p = Throw m p1 ->
  (0 <= utcFullYear now <= 9999)%Z ->
  boot net now p
    = refresh net (withCurrentDate (Some (utcFolder now)) (withDateInput (utcISODate now) p1)) /\
  isFolderDate (utcFolder now) = true /\
  exists p', boot net now p = Return tt p' /\
    currentDate p' = Some (utcFolder now) /\
    dateInput_value p' = utcISODate now /\
    exists rest,
      requests p' = (requests p ++ latestUrl :: indexUrl (utcFolder now) (currentKind p) :: rest)%list.
Proof.
  intros Hthrow Hy.
  pose proof (loadLatestDate_throws net p m p1 Hthrow) as Hp1.
  destruct (utcFolder_wellformed now) as [Hwf Hconv].
  assert (Hboot : boot net now p
    = refresh net (withCurrentDate (Some (utcFolder now)) (withDateInput (utcISODate now) p1))).
  { unfold boot, bind at 1, tryCatch, setDateFromLatest, bind at 1.
    rewrite Hthrow. unfold bind at 1, modify.
    rewrite (toISOString_date now Hy), Hconv. reflexivity. }
  split; [exact Hboot |]. split; [exact Hwf |].
  set (q := withCurrentDate (Some (utcFolder now)) (withDateInput (utcISODate now) p1)) in *.
  destruct (refresh_ends net q (utcFolder now) eq_refl (folderDate_nonempty _ Hwf))
    as (p' & E & Hends).
  destruct (refreshEnds_selection net q (utcFolder now) p' Hends) as (Hd & Hk & Hi & rest & Hreq).
  exists p'. split; [now rewrite Hboot |].
  split; [exact Hd |]. split; [exact Hi |].
  exists rest. rewrite Hreq. subst q. rewrite Hp1.
  change (requests (withCurrentDate (Some (utcFolder now))
                     (withDateInput (utcISODate now) (requested latestUrl p))))
    with (requests p ++ [latestUrl])%list.
  rewrite <- app_assoc. reflexivity.
Qed.

Lemma boot_falls_back_to_utc_date_witness :
  exists p', boot (serve []) sampleNow bootPage = Return tt p' /\
    currentDate p' = Some "20251103" /\
    dateInput_value p' = "2025-11-03" /\
    exists rest,
      requests p' = "./data/latest.json" :: "./data/20251103/tec/index.json" :: rest.
Proof.
  destruct (boot_falls_back_to_utc_date (serve []) sampleNow bootPage
              "HTTP 404 ./data/latest.json" (requested latestUrl bootPage))
    as (_ & _ & H); [reflexivity | split; discriminate |].
  exact H.
Defined.

(** * Further properties *)

(** ** Strings and dates *)

Lemma length_append (a b : string) :
  String.length (a ++ b) = (String.length a + String.length b)%nat.
Proof. induction a as [| c a IH]; simpl; [reflexivity | now rewrite IH]. Qed.

Lemma removeHyphens_hyphenFree (s : string) : hyphenFree (removeHyphens s) = true.
Proof.
  induction s as [| c r IH]; simpl; [reflexivity |].
  destruct (Ascii.eqb c "-") eqn:E; [exact IH |]. simpl. now rewrite E, IH.
Qed.

Lemma removeHyphens_id (s : string) : hyphenFree s = true -> removeHyphens s = s.
Proof.
  induction s as [| c r IH]; simpl; [reflexivity |].
  intros H. apply andb_prop in H. destruct H as [Hc Hr].
  apply negb_true_iff in Hc. rewrite Hc. now rewrite IH.
Qed.

Lemma removeHyphens_length (s : string) :
  (String.length (removeHyphens s) <= String.length s)%nat.
Proof.
  induction s as [| c r IH]; simpl; [lia |].
  destruct (Ascii.eqb c "-"); simpl; lia.
Qed.

(** [ymdToFolder] leaves no hyphen in its result, whatever it is given, so
    that applying it again changes nothing; it never lengthens its
    argument and returns a string without hyphens as it is. *)
Theorem ymdToFolder_strips_every_hyphen (dateStr : option string) :
  hyphenFree (ymdToFolder dateStr) = true /\
  ymdToFolder (Some (ymdToFolder dateStr)) = ymdToFolder dateStr /\
  (String.length (ymdToFolder dateStr)
     <= String.length (match dateStr with Some s => s | None => "" end))%nat /\
  (forall s, hyphenFree s = true -> ymdToFolder (Some s) = s).
Proof.
  unfold ymdToFolder. split; [apply removeHyphens_hyphenFree |].
  split; [apply removeHyphens_id, removeHyphens_hyphenFree |].
  split; [apply removeHyphens_length |].
  intros s. apply removeHyphens_id.
Qed.

Lemma ymdToFolder_strips_every_hyphen_witness :
  ymdToFolder (Some "--2024-01-31-") = "20240131" /\
  ymdToFolder (Some "20240131") = "20240131".
Proof.
  split; [reflexivity |].
  apply (proj2 (proj2 (proj2 (ymdToFolder_strips_every_hyphen None)))). reflexivity.
Defined.

Ltac split_hyphenFree H :=
  simpl in H;
  repeat match goal with
  | G : andb _ _ = true |- _ => apply andb_prop in G; destruct G
  | G : negb _ = true |- _ => apply negb_true_iff in G
  end.

(** For a string without hyphens of any length, going to the hyphenated
    form and back yields its first eight characters: a longer string is
    cut, a shorter one comes back whole. *)
Theorem folder_round_trip_keeps_first_eight (x : string) :
  hyphenFree x = true ->
  ymdToFolder (Some (folderToISODate x)) = slice 0 8 x.
Proof.
  intros H. unfold ymdToFolder, folderToISODate, slice.
  do 8 (destruct x as [| ? x];
        [split_hyphenFree H; simpl;
         repeat match goal with G : Ascii.eqb _ _ = false |- _ => rewrite G; clear G end;
         reflexivity |]).
  split_hyphenFree H. simpl.
  repeat match goal with G : Ascii.eqb _ _ = false |- _ => rewrite G; clear G end.
  destruct x; reflexivity.
Qed.

Lemma folder_round_trip_keeps_first_eight_witness :
  ymdToFolder (Some (folderToISODate "2024013199")) = "20240131" /\
  ymdToFolder (Some (folderToISODate "2024")) = "2024".
Proof.
  split.
  - apply (folder_round_trip_keeps_first_eight "2024013199"). reflexivity.
  - apply (folder_round_trip_keeps_first_eight "2024"). reflexivity.
Defined.

(** ** The colour scale *)

Lemma rgbaText_long (r b : integral) : (14 <= String.length (rgbaText r b))%nat.
Proof.
  unfold rgbaText. rewrite !length_append. simpl. lia.
Qed.

Lemma colorScale_finite_painted (v vmin vmax : num) :
  isFinite v = true -> colorScale v vmin vmax <> "rgba(0,0,0,0)".
Proof.
  intros Hv E. unfold colorScale in E. rewrite Hv in E. simpl negb in E. cbv iota zeta in E.
  pose proof (rgbaText_long (scaleRed (scaleX v vmin vmax)) (scaleBlue (scaleX v vmin vmax))) as L.
  rewrite E in L. simpl in L. lia.
Qed.

(** [colorScale] gives the transparent colour to the values that are not
    finite and to no other: a finite value is always painted, whatever the
    range. *)
Theorem colorScale_transparent_iff_not_finite (v vmin vmax : num) :
  colorScale v vmin vmax = "rgba(0,0,0,0)" <-> isFinite v = false.
Proof.
  split.
  - destruct (isFinite v) eqn:Hv; [| reflexivity].
    intros E. now destruct (colorScale_finite_painted _ _ _ Hv E).
  - intros Hv. unfold colorScale. now rewrite Hv.
Qed.

Section Saturation.

Local Open Scope Q_scope.






End Saturation.





(** ** The time slider *)

Section SliderRoundTrip.

Lemma leadingDigits_uint (d : Decimal.uint) (acc : Z) :
  leadingDigits (Some acc) (NilEmpty.string_of_uint d) = Some (uintValue acc d).
Proof.
  revert acc. induction d; intros acc; simpl; try reflexivity; apply IHd.
Qed.

Lemma leadingDigits_uint_start (d : Decimal.uint) :
  d <> Decimal.Nil ->
  leadingDigits None (NilEmpty.string_of_uint d) = Some (uintValue 0 d).
Proof.
  destruct d; intros H; [congruence | ..]; simpl; apply leadingDigits_uint.
Qed.

Lemma uintValue_acc (d : Decimal.uint) (acc : positive) :
  uintValue (Z.pos acc) d = Z.pos (Pos.of_uint_acc d acc).
Proof.
  revert acc. induction d; intros acc; cbn [uintValue Pos.of_uint_acc]; try reflexivity;
    rewrite <- IHd; f_equal; lia.
Qed.

Lemma uintValue_of_uint (d : Decimal.uint) : uintValue 0 d = Z.of_N (Pos.of_uint d).
Proof.
  induction d; simpl; try reflexivity; try exact IHd;
    (etransitivity; [| apply uintValue_acc]); reflexivity.
Qed.

Lemma uintValue_to_uint (p : positive) : uintValue 0 (Pos.to_uint p) = Z.pos p.
Proof.
  rewrite uintValue_of_uint, DecimalPos.Unsigned.of_to. reflexivity.
Qed.

(** A run of decimal digits is read as it stands: it starts with no white
    space and no sign. *)
Lemma parseInt_digits (d : Decimal.uint) :
  d <> Decimal.Nil ->
  (uintValue 0 d < overflowInt)%Z ->
  parseInt (NilEmpty.string_of_uint d) = IInt (uintValue 0 d).
Proof.
  intros Hd Hlt.
  assert (E : parseInt (NilEmpty.string_of_uint d)
              = match leadingDigits None (NilEmpty.string_of_uint d) with
                | None => INaN
                | Some n => if (overflowInt <=? n)%Z then IPosInf else IInt n
                end).
  { destruct d; [congruence | ..]; reflexivity. }
  rewrite E, (leadingDigits_uint_start d Hd).
  destruct (Z.leb_spec overflowInt (uintValue 0 d)); [lia | reflexivity].
Qed.

Lemma parseInt_Z_toString (z : Z) :
  (0 <= z < overflowInt)%Z -> parseInt (Z_toString z) = IInt z.
Proof.
  intros Hz. destruct z as [| p | p]; [| | lia].
  - reflexivity.
  - unfold Z_toString. simpl Z.to_int. unfold NilZero.string_of_int.
    pose proof (DecimalPos.Unsigned.to_uint_nonnil p) as Hn.
    assert (E : NilZero.string_of_uint (Pos.to_uint p)
                = NilEmpty.string_of_uint (Pos.to_uint p)).
    { destruct (Pos.to_uint p); [now destruct Hn | reflexivity ..]. }
    rewrite E, (parseInt_digits _ Hn); rewrite uintValue_to_uint; [reflexivity | lia].
Qed.

Lemma Z_toString_nonempty (z : Z) : (0 <= z)%Z -> String.eqb (Z_toString z) "" = false.
Proof.
  intros Hz. destruct z as [| p | p]; [reflexivity | | lia].
  unfold Z_toString. simpl Z.to_int. unfold NilZero.string_of_int, NilZero.string_of_uint.
  destruct (Pos.to_uint p); reflexivity.
Qed.

Lemma maxArrayLength_small : (maxArrayLength < overflowInt)%Z.
Proof. vm_compute. reflexivity. Qed.

End SliderRoundTrip.

(** The slider is read back as it was written: for an array of [len]
    entries, with [len] within the bound on array lengths, the decimal of
    an index in range is read as that index, and the string that a run
    writes to the slider is read by the next run as the same index. *)
Theorem sliderIndex_reads_back_what_it_wrote (len : nat) :
  (0 < len)%nat -> (Z.of_nat len <= maxArrayLength)%Z ->
  (forall i : Z, (0 <= i <= Z.of_nat len - 1)%Z ->
     sliderIndex len (toString (IInt i)) = IInt i) /\
  (forall sliderValue : string,
     sliderIndex len (toString (sliderIndex len sliderValue)) = sliderIndex len sliderValue).
Proof.
  intros Hlen Hmax. pose proof maxArrayLength_small as Hsmall.
  assert (Hback : forall i : Z, (0 <= i <= Z.of_nat len - 1)%Z ->
            sliderIndex len (toString (IInt i)) = IInt i).
  { intros i Hi. unfold sliderIndex. simpl toString.
    rewrite Z_toString_nonempty by lia.
    rewrite parseInt_Z_toString by lia.
    simpl. f_equal. lia. }
  split; [exact Hback |].
  intros s. destruct (sliderIndex_in_range len s Hlen) as (i & -> & Hi).
  now apply Hback.
Qed.

Lemma sliderIndex_reads_back_what_it_wrote_witness :
  sliderIndex 3 (toString (IInt 2)) = IInt 2 /\
  sliderIndex 3 (toString (sliderIndex 3 "17")) = sliderIndex 3 "17".
Proof.
  destruct (sliderIndex_reads_back_what_it_wrote 3) as [Hi Hs].
  - apply Nat.lt_0_succ.
  - vm_compute. discriminate.
  - split; [apply Hi; split; discriminate | apply Hs].
Defined.

(** What the slider holds that is no index in range still gives one: an
    empty value and a value that [parseInt] does not read as a finite
    number (text without leading digits, digits beyond the range of a
    Number) give the first position, a negative number gives the first
    position too, and a number past the end gives the last. *)
Theorem sliderIndex_of_odd_values (len : nat) :
  (0 < len)%nat ->
  sliderIndex len "" = IInt 0 /\
  (forall s, s <> "" -> Number_isFinite (parseInt s) = false -> sliderIndex len s = IInt 0) /\
  (forall s z, s <> "" -> parseInt s = IInt z -> (z < 0)%Z -> sliderIndex len s = IInt 0) /\
  (forall s z, s <> "" -> parseInt s = IInt z -> (Z.of_nat len - 1 <= z)%Z ->
     sliderIndex len s = IInt (Z.of_nat len - 1)).
Proof.
  intros Hlen.
  assert (Hne : forall s, s <> "" -> (if String.eqb s "" then "0" else s) = s).
  { intros s Hs. destruct (String.eqb_spec s ""); [contradiction | reflexivity]. }
  split; [| split; [| split]].
  - unfold sliderIndex. simpl. f_equal. lia.
  - intros s Hs Hp. unfold sliderIndex. rewrite (Hne s Hs), Hp. simpl. f_equal. lia.
  - intros s z Hs Hp Hz. unfold sliderIndex. rewrite (Hne s Hs), Hp. simpl. f_equal. lia.
  - intros s z Hs Hp Hz. unfold sliderIndex. rewrite (Hne s Hs), Hp. simpl. f_equal. lia.
Qed.

Lemma sliderIndex_of_odd_values_witness :
  sliderIndex 3 "" = IInt 0 /\ sliderIndex 3 "abc" = IInt 0 /\
  sliderIndex 3 "-4" = IInt 0 /\ sliderIndex 3 "9" = IInt 2.
Proof.
  destruct (sliderIndex_of_odd_values 3 (Nat.lt_0_succ 2)) as (He & Hn & Hneg & Hbig).
  split; [exact He |]. split; [apply Hn; [discriminate | reflexivity] |].
  split.
  - apply (Hneg "-4" (-4)%Z); [discriminate | reflexivity | reflexivity].
  - apply (Hbig "9" 9%Z); [discriminate | reflexivity | discriminate].
Defined.

(** ** Fetching and the loaders *)

(** [fetchJson] returns a document exactly when the status is a success
    and the body is JSON, and throws in the three other cases with the
    message of [fetchFails]: a status that is no success throws the HTTP
    message even when the body would parse.  Either way the URL is the one
    request added and nothing else on the page changes. *)
Theorem fetchJson_returns_iff_success (net : network) (url : string) (p : page) :
  (forall j p', fetchJson net url p = Return j p' <->
     (exists status, net (requests p) url = Response status (Parsed j) /\ ok status = true) /\
     p' = requested url p) /\
  (forall m p', fetchJson net url p = Throw m p' <->
     fetchFails url (net (requests p) url) m /\ p' = requested url p).
Proof.
  split.
  - intros j p'. split.
    + intros H.
      destruct (fetchJson_cases net url p) as [(m & _ & E) | (status & j0 & Hr & Hok & E)];
        rewrite E in H; [discriminate |].
      injection H as <- <-. split; [now exists status | reflexivity].
    + intros [(status & Hr & Hok) ->]. now apply (fetchJson_parsed net url p status j).
  - intros m p'. split.
    + intros H.
      destruct (fetchJson_cases net url p) as [(m0 & Hf & E) | (status & j0 & Hr & Hok & E)];
        rewrite E in H; [| discriminate].
      injection H as <- <-. split; [exact Hf | reflexivity].
    + intros [Hf ->]. now apply fetchJson_fails.
Qed.

Lemma fetchJson_returns_iff_success_witness :
  fetchJson sampleNet (indexUrl "20240101" "tec") samplePage
    = Return (Some sampleIndex) (requested (indexUrl "20240101" "tec") samplePage) /\
  fetchJson sampleNet latestUrl samplePage
    = Throw "HTTP 404 ./data/latest.json" (requested latestUrl samplePage).
Proof.
  split.
  - apply (proj1 (fetchJson_returns_iff_success sampleNet (indexUrl "20240101" "tec") samplePage)).
    split; [exists 200%Z; split; reflexivity | reflexivity].
  - apply (proj2 (fetchJson_returns_iff_success sampleNet latestUrl samplePage)).
    split; [apply (fails_status latestUrl 404); reflexivity | reflexivity].
Defined.

(** [loadLatestDate] requests the pointer once and returns the date it
    holds only when that date is not empty; a document that is null,
    lacks the date or holds an empty one makes it throw its own error. *)
Theorem loadLatestDate_returns_a_nonempty_date (net : network) (p : page) :
  (forall d p', loadLatestDate net p = Return d p' ->
     d <> "" /\ p' = requested latestUrl p /\
     exists status j, net (requests p) latestUrl = Response status (Parsed j) /\
       ok status = true /\ optGet j Json.date = Some d) /\
  (forall status j, net (requests p) latestUrl = Response status (Parsed j) ->
     ok status = true ->
     optGet j Json.date = None \/ optGet j Json.date = Some "" ->
     loadLatestDate net p = Throw "latest.json missing date" (requested latestUrl p)).
Proof.
  split.
  - intros d p' H. unfold loadLatestDate, bind in H.
    destruct (fetchJson_cases net latestUrl p) as [(m & _ & E) | (status & j & Hr & Hok & E)];
      unfold latestUrl in E; rewrite E in H; [discriminate |].
    destruct (optGet j Json.date) as [d0 |] eqn:Ed; [| discriminate].
    destruct (String.eqb_spec d0 ""); [discriminate |].
    unfold ret in H. injection H as <- <-.
    split; [assumption |]. split; [reflexivity |]. now exists status, j.
  - intros status j Hr Hok Hd. unfold loadLatestDate, bind.
    change "./data/latest.json" with latestUrl.
    rewrite (fetchJson_parsed net latestUrl p status j Hr Hok).
    destruct Hd as [-> | ->]; reflexivity.
Qed.

Lemma loadLatestDate_returns_a_nonempty_date_witness :
  loadLatestDate (serve [ (latestUrl, Response 200 (Parsed (Some Json.empty))) ]) bootPage
    = Throw "latest.json missing date" (requested latestUrl bootPage) /\
  loadLatestDate (serve [ (latestUrl, Response 200 (Parsed None)) ]) bootPage
    = Throw "latest.json missing date" (requested latestUrl bootPage).
Proof.
  split.
  - apply (proj2 (loadLatestDate_returns_a_nonempty_date _ bootPage) 200%Z (Some Json.empty));
      [reflexivity | reflexivity | left; reflexivity].
  - apply (proj2 (loadLatestDate_returns_a_nonempty_date _ bootPage) 200%Z None);
      [reflexivity | reflexivity | left; reflexivity].
Defined.

Lemma folder_iso_round_trip (d : string) :
  isFolderDate d = true ->
  isISODate (folderToISODate d) = true /\ ymdToFolder (Some (folderToISODate d)) = d.
Proof.
  intros H.
  do 8 (destruct d as [| ? d]; [compute in H; discriminate H |]).
  destruct d; [| compute in H; discriminate H].
  unfold isFolderDate in H.
  destruct (folder_of_digits _ _ _ _ _ _ _ _ H) as [_ E].
  split; [| exact E].
  unfold isISODate. simpl. simpl in H. now rewrite H.
Qed.

Lemma loadLatestDate_page (net : network) (p : page) (d : string) (p1 : page) :
  loadLatestDate net p = Return d p1 -> p1 = requested latestUrl p /\ d <> "".
Proof.
  unfold loadLatestDate, bind. intros H.
  destruct (fetchJson_cases net latestUrl p) as [(m & _ & E) | (status & j & _ & _ & E)];
    unfold latestUrl in E; rewrite E in H; [discriminate |].
  destruct (optGet j Json.date) as [d0 |]; [| discriminate].
  destruct (String.eqb_spec d0 ""); [discriminate |].
  unfold ret in H. injection H as <- <-. auto.
Qed.

Lemma setDateFromLatest_loaded (net : network) (p : page) (d : string) (p1 : page) :
  loadLatestDate net p = Return d p1 ->
  setDateFromLatest net p
  = Return tt (withDateInput (folderToISODate d) (withCurrentDate (Some d) p1)).
Proof.
  intros H. unfold setDateFromLatest, bind. rewrite H. reflexivity.
Qed.

Lemma setDateFromLatest_failed (net : network) (p : page) (m : string) (p1 : page) :
  loadLatestDate net p = Throw m p1 -> setDateFromLatest net p = Throw m p1.
Proof.
  intros H. unfold setDateFromLatest, bind. now rewrite H.
Qed.

(** [setDateFromLatest] selects the latest date and shows it hyphenated
    in the date input, so that for a date of eight digits the input and
    the selection agree; when the pointer cannot be loaded it throws and
    leaves the selection and the input as they were. *)
Theorem setDateFromLatest_selects_or_leaves (net : network) (p : page) :
  (forall d p1, loadLatestDate net p = Return d p1 ->
     exists p', setDateFromLatest net p = Return tt p' /\
       currentDate p' = Some d /\ dateInput_value p' = folderToISODate d /\
       currentKind p' = currentKind p /\ gridLayer p' = gridLayer p /\
       requests p' = (requests p ++ [latestUrl])%list /\
       (isFolderDate d = true ->
        isISODate (dateInput_value p') = true /\
        ymdToFolder (Some (dateInput_value p')) = d)) /\
  (forall m p1, loadLatestDate net p = Throw m p1 ->
     setDateFromLatest net p = Throw m p1 /\
     currentDate p1 = currentDate p /\ dateInput_value p1 = dateInput_value p /\
     currentKind p1 = currentKind p /\ gridLayer p1 = gridLayer p /\
     requests p1 = (requests p ++ [latestUrl])%list).
Proof.
  split.
  - intros d p1 H. destruct (loadLatestDate_page net p d p1 H) as [-> _].
    rewrite (setDateFromLatest_loaded net p d _ H).
    eexists. split; [reflexivity |]. repeat (split; [reflexivity |]).
    intros Hwf. simpl. now apply folder_iso_round_trip.
  - intros m p1 H. rewrite (loadLatestDate_throws net p m p1 H).
    split; [| repeat split].
    rewrite <- (loadLatestDate_throws net p m p1 H). now apply setDateFromLatest_failed.
Qed.

Lemma setDateFromLatest_selects_or_leaves_witness :
  exists p',
    setDateFromLatest
      (serve [ (latestUrl, Response 200 (Parsed (Some (
         {| Json.date := Some "20240131"; Json.times_utc := None; Json.cell := None;
            Json.range := None; Json.unit := None; Json.updated_utc := None;
            Json.cells := None |})))) ]) bootPage = Return tt p' /\
    currentDate p' = Some "20240131" /\ dateInput_value p' = "2024-01-31".
Proof.
  destruct (proj1 (setDateFromLatest_selects_or_leaves
              (serve [ (latestUrl, Response 200 (Parsed (Some (
                 {| Json.date := Some "20240131"; Json.times_utc := None; Json.cell := None;
                    Json.range := None; Json.unit := None; Json.updated_utc := None;
                    Json.cells := None |})))) ]) bootPage)
              "20240131" (requested latestUrl bootPage) eq_refl)
    as (p' & E & Hd & Hi & _).
  exists p'. split; [exact E |]. split; [exact Hd | exact Hi].
Defined.

(** ** Runs of the render pipeline *)

Lemma element_In {A : Type} (arr : list A) (i : integral) (a : A) :
  element arr i = Some a -> In a arr.
Proof.
  destruct i as [| | |z]; simpl; try discriminate.
  destruct (z <? 0)%Z; [discriminate |]. apply nth_error_In.
Qed.

Lemma refresh_unset (net : network) (p : page) :
  dateUnset (currentDate p) = true -> refresh net p = Return tt p.
Proof. intros H. unfold refresh, bind, get. now rewrite H. Qed.

Lemma dateUnset_false (p : page) :
  dateUnset (currentDate p) = false ->
  exists ymd, currentDate p = Some ymd /\ ymd <> "".
Proof.
  unfold dateUnset. destruct (currentDate p) as [ymd |]; [| discriminate].
  intros H. exists ymd. split; [reflexivity |]. now apply String.eqb_neq.
Qed.

(** A run of [refresh] never throws and never changes the selection or
    what the date input and the layer select hold, whether a date is set
    or not and however the fetches end. *)
Theorem refresh_keeps_the_selection (net : network) (p : page) :
  exists p', refresh net p = Return tt p' /\
    currentDate p' = currentDate p /\ currentKind p' = currentKind p /\
    dateInput_value p' = dateInput_value p /\
    layerSelect_value p' = layerSelect_value p.
Proof.
  destruct (dateUnset (currentDate p)) eqn:Hu.
  - exists p. split; [now apply refresh_unset |]. repeat split.
  - destruct (dateUnset_false p Hu) as (ymd & Hd & Hne).
    destruct (refresh_ends net p ymd Hd Hne) as (p' & E & Hends).
    exists p'. split; [exact E |]. destruct Hends; repeat split.
Qed.



(** A run with a date set never ends on the loading message: the status
    it leaves is the error of the catch block, the notice of an index
    without times, or the OK of a render. *)
Theorem refresh_leaves_a_final_status (net : network) (p : page) (ymd : string) :
  currentDate p = Some ymd -> ymd <> "" ->
  exists p', refresh net p = Return tt p' /\
    ((exists m, statusEl_textContent p' = "Error: " ++ m /\
                legendBody p' = TextContent missingNotice /\ gridLayer p' = []) \/
     (statusEl_textContent p' = "No times in " ++ currentKind p ++ "/index.json (yet)" /\
      timeLabel_textContent p' = "--:-- UTC" /\ gridLayer p' = []) \/
     (exists stamp, statusEl_textContent p' = "OK (updated: " ++ stamp ++ ")")) /\
    statusEl_textContent p'
      <> "Loading " ++ toUpperCase (currentKind p) ++ " " ++ ymd ++ "...".
Proof.
  intros Hd Hne.
  destruct (refresh_ends net p ymd Hd Hne) as (p' & E & Hends).
  exists p'. split; [exact E |].
  destruct Hends as [m Hf | status idx Hr Hok Hnone
                    | status idx t ts hhmm m Hr Hok Et Eh Hf
                    | status idx t ts hhmm gstatus grid Hr Hok Et Eh Hg Hgok].
  - split; [left; exists m; repeat split | discriminate].
  - split; [right; left; repeat split | discriminate].
  - split; [left; exists m; repeat split | discriminate].
  - split; [right; right; eexists; reflexivity | discriminate].
Qed.

Lemma refresh_leaves_a_final_status_witness :
  exists p', refresh (serve []) samplePage = Return tt p' /\
    ((exists m, statusEl_textContent p' = "Error: " ++ m /\
                legendBody p' = TextContent missingNotice /\ gridLayer p' = []) \/
     (statusEl_textContent p' = "No times in tec/index.json (yet)" /\
      timeLabel_textContent p' = "--:-- UTC" /\ gridLayer p' = []) \/
     (exists stamp, statusEl_textContent p' = "OK (updated: " ++ stamp ++ ")")) /\
    statusEl_textContent p' <> "Loading TEC 20240101...".
Proof.
  apply (refresh_leaves_a_final_status (serve []) samplePage "20240101");
    [reflexivity | discriminate].
Defined.

(** A run with a date set makes one request or two: the index of the
    selected date and layer comes first, and a snapshot is requested only
    after an index with times was loaded, for one of its times. *)
Theorem refresh_requests_index_then_snapshot (net : network) (p : page) (ymd : string) :
  currentDate p = Some ymd -> ymd <> "" ->
  exists p', refresh net p = Return tt p' /\
    (requests p' = (requests p ++ [indexUrl ymd (currentKind p)])%list \/
     exists status idx ts hhmm,
       net (requests p) (indexUrl ymd (currentKind p)) = Response status (Parsed idx) /\
       ok status = true /\ timesOr idx = Json.Arr ts /\ In hhmm ts /\
       requests p' = (requests p ++ [indexUrl ymd (currentKind p);
                                     gridUrl ymd (currentKind p) hhmm])%list).
Proof.
  intros Hd Hne.
  destruct (refresh_ends net p ymd Hd Hne) as (p' & E & Hends).
  exists p'. split; [exact E |].
  destruct Hends as [m Hf | status idx Hr Hok Hnone
                    | status idx t ts hhmm m Hr Hok Et Eh Hf
                    | status idx t ts hhmm gstatus grid Hr Hok Et Eh Hg Hgok].
  - left. reflexivity.
  - left. reflexivity.
  - right. exists status, idx, (t :: ts), hhmm.
    repeat (split; [assumption || exact (element_In _ _ _ Eh) |]).
    simpl. now rewrite <- app_assoc.
  - right. exists status, idx, (t :: ts), hhmm.
    repeat (split; [assumption || exact (element_In _ _ _ Eh) |]).
    simpl. now rewrite <- app_assoc.
Qed.

Lemma refresh_requests_index_then_snapshot_witness :
  exists p', refresh sampleNet samplePage = Return tt p' /\
    (requests p' = (requests samplePage ++ [indexUrl "20240101" "tec"])%list \/
     exists status idx ts hhmm,
       sampleNet (requests samplePage) (indexUrl "20240101" "tec") = Response status (Parsed idx) /\
       ok status = true /\ timesOr idx = Json.Arr ts /\ In hhmm ts /\
       requests p' = (requests samplePage ++ [indexUrl "20240101" "tec";
                                              gridUrl "20240101" "tec" hhmm])%list).
Proof.
  apply (refresh_requests_index_then_snapshot sampleNet samplePage "20240101");
    [reflexivity | discriminate].
Defined.

(** When the index cannot be fetched the run leaves the known times, the
    slider and the time label as they were: only the grid, the status and
    the legend change, and no snapshot is requested. *)
Theorem refresh_index_failure_keeps_the_times (net : network) (p : page) (ymd m : string) :
  currentDate p = Some ymd -> ymd <> "" ->
  fetchFails (indexUrl ymd (currentKind p))
    (net (requests p) (indexUrl ymd (currentKind p))) m ->
  exists p', refresh net p = Return tt p' /\
    times p' = times p /\
    timeSlider_min p' = timeSlider_min p /\ timeSlider_max p' = timeSlider_max p /\
    timeSlider_value p' = timeSlider_value p /\
    timeLabel_textContent p' = timeLabel_textContent p /\
    requests p' = (requests p ++ [indexUrl ymd (currentKind p)])%list.
Proof.
  intros Hd Hne Hf. rewrite (refresh_enters_try net p ymd Hd Hne). unfold tryCatch.
  rewrite (refreshTry_index_fails net p ymd Hd m Hf).
  eexists. split; [reflexivity |]. repeat split.
Qed.

Lemma refresh_index_failure_keeps_the_times_witness :
  exists p', refresh (serve []) samplePage = Return tt p' /\
    times p' = Json.Arr [] /\
    timeSlider_min p' = "0" /\ timeSlider_max p' = "0" /\
    timeSlider_value p' = "1" /\
    timeLabel_textContent p' = "--:-- UTC" /\
    requests p' = [indexUrl "20240101" "tec"].
Proof.
  apply (refresh_index_failure_keeps_the_times (serve []) samplePage "20240101"
           "HTTP 404 ./data/20240101/tec/index.json");
    [reflexivity | discriminate |].
  apply (fails_status (indexUrl "20240101" "tec") 404). reflexivity.
Defined.



(** ** Event handlers and boot *)

Lemma sliderIndex_zero (len : nat) : (0 < len)%nat -> sliderIndex len "0" = IInt 0.
Proof.
  intros Hlen. unfold sliderIndex.
  change (parseInt (if String.eqb "0" "" then "0" else "0")) with (parseInt "0").
  assert (E : parseInt "0" = IInt 0) by (vm_compute; reflexivity).
  rewrite E. simpl. f_equal. lia.
Qed.

(** A run that starts with the slider at 0 over an index with times
    resolves the first of them. *)
Lemma refresh_first_time (net : network) (q : page) (ymd : string)
    (status : Z) (idx : json) (t : string) (ts : list string) :
  currentDate q = Some ymd -> ymd <> "" -> timeSlider_value q = "0" ->
  net (requests q) (indexUrl ymd (currentKind q)) = Response status (Parsed idx) ->
  ok status = true ->
  timesOr idx = Json.Arr (t :: ts) ->
  exists p', refresh net q = Return tt p' /\
    times p' = Json.Arr (t :: ts) /\
    timeSlider_value p' = "0" /\
    timeLabel_textContent p' = timeLabelOf t /\
    requests p' = (requests q ++ [indexUrl ymd (currentKind q);
                                  gridUrl ymd (currentKind q) t])%list.
Proof.
  intros Hd Hne Hs Hr Hok Et.
  assert (Eh : element (t :: ts) (sliderIndex (List.length (t :: ts)) (timeSlider_value q))
               = Some t).
  { rewrite Hs, sliderIndex_zero by (simpl; lia). reflexivity. }
  assert (Ei : sliderIndex (List.length (t :: ts)) (timeSlider_value q) = IInt 0).
  { rewrite Hs. apply sliderIndex_zero. simpl; lia. }
  rewrite (refresh_enters_try net q ymd Hd Hne). unfold tryCatch.
  destruct (fetchJson_cases net (gridUrl ymd (currentKind q) t) (labelled q ymd (t :: ts) t))
    as [(m & Hf & _) | (gstatus & grid & Hg & Hgok & _)].
  - rewrite (refreshTry_grid_fails net q ymd Hd status idx Hr Hok t ts Et t m Eh Hf).
    eexists. split; [reflexivity |]. split; [reflexivity |].
    split; [change (toString (sliderIndex (List.length (t :: ts)) (timeSlider_value q)) = "0");
            now rewrite Ei |].
    split; [reflexivity |]. simpl. now rewrite <- app_assoc.
  - rewrite (refreshTry_rendered net q ymd Hd status idx Hr Hok t ts Et t gstatus grid Eh Hg Hgok).
    eexists. split; [reflexivity |]. split; [reflexivity |].
    split; [change (toString (sliderIndex (List.length (t :: ts)) (timeSlider_value q)) = "0");
            now rewrite Ei |].
    split; [reflexivity |]. simpl. now rewrite <- app_assoc.
Qed.

Lemma onDateInputChange_run (net : network) (p : page) :
  onDateInputChange net p
  = refresh net (withSliderValue "0"
      (withCurrentDate (Some (ymdToFolder (Some (dateInput_value p)))) p)).
Proof. reflexivity. Qed.

Lemma onLayerSelectChange_run (net : network) (p : page) :
  onLayerSelectChange net p
  = refresh net (withSliderValue "0" (withCurrentKind (layerSelect_value p) p)).
Proof. reflexivity. Qed.

(** When the date input holds nothing but hyphens, or nothing at all, the
    change handler selects the empty date, resets the slider and stops:
    nothing is requested, and the grid, the legend, the status and the
    time label shown before stay as they are. *)
Theorem onDateInputChange_with_no_date (net : network) (p : page) :
  ymdToFolder (Some (dateInput_value p)) = "" ->
  exists p', onDateInputChange net p = Return tt p' /\
    currentDate p' = Some "" /\ timeSlider_value p' = "0" /\
    requests p' = requests p /\ gridLayer p' = gridLayer p /\
    legendBody p' = legendBody p /\
    statusEl_textContent p' = statusEl_textContent p /\
    timeLabel_textContent p' = timeLabel_textContent p /\
    times p' = times p.
Proof.
  intros H. rewrite onDateInputChange_run, H.
  rewrite refresh_unset by reflexivity.
  eexists. split; [reflexivity |]. repeat split.
Qed.

Lemma onDateInputChange_with_no_date_witness :
  exists p', onDateInputChange sampleNet (withDateInput "--" samplePage) = Return tt p' /\
    currentDate p' = Some "" /\ timeSlider_value p' = "0" /\
    requests p' = [] /\ gridLayer p' = [] /\
    legendBody p' = TextContent "" /\
    statusEl_textContent p' = "" /\
    timeLabel_textContent p' = "--:-- UTC" /\
    times p' = Json.Arr [].
Proof.
  apply (onDateInputChange_with_no_date sampleNet (withDateInput "--" samplePage)).
  reflexivity.
Defined.

(** A change of the date selects the date of the input without its
    hyphens and starts over at the first time: wherever the slider stood,
    the run loads the index of the new date and, when it lists times,
    labels and requests the first of them. *)
Theorem onDateInputChange_shows_the_first_time (net : network) (p : page)
    (status : Z) (idx : json) (t : string) (ts : list string) :
  let ymd := ymdToFolder (Some (dateInput_value p)) in
  ymd <> "" ->
  net (requests p) (indexUrl ymd (currentKind p)) = Response status (Parsed idx) ->
  ok status = true ->
  timesOr idx = Json.Arr (t :: ts) ->
  exists p', onDateInputChange net p = Return tt p' /\
    currentDate p' = Some ymd /\ currentKind p' = currentKind p /\
    times p' = Json.Arr (t :: ts) /\
    timeSlider_value p' = "0" /\
    timeLabel_textContent p' = timeLabelOf t /\
    requests p' = (requests p ++ [indexUrl ymd (currentKind p);
                                  gridUrl ymd (currentKind p) t])%list.
Proof.
  intros ymd Hne Hr Hok Et. rewrite onDateInputChange_run. fold ymd.
  set (q := withSliderValue "0" (withCurrentDate (Some ymd) p)).
  destruct (refresh_first_time net q ymd status idx t ts eq_refl Hne eq_refl Hr Hok Et)
    as (p' & E & Ht & Hs & Hl & Hq).
  destruct (refresh_ends net q ymd eq_refl Hne) as (p2 & E2 & Hends).
  assert (p2 = p') as -> by congruence.
  destruct (refreshEnds_selection net q ymd p' Hends) as (Hd & Hk & _).
  exists p'. split; [exact E |]. split; [exact Hd |]. split; [exact Hk |].
  repeat (split; [assumption |]). exact Hq.
Qed.

Lemma onDateInputChange_shows_the_first_time_witness :
  exists p', onDateInputChange sampleNet samplePage = Return tt p' /\
    currentDate p' = Some "20240101" /\ currentKind p' = "tec" /\
    times p' = Json.Arr ["0000"; "1200"] /\
    timeSlider_value p' = "0" /\
    timeLabel_textContent p' = "00:00 UTC" /\
    requests p' = ["./data/20240101/tec/index.json"; "./data/20240101/tec/0000.json"].
Proof.
  apply (onDateInputChange_shows_the_first_time sampleNet samplePage 200 (Some sampleIndex));
    [discriminate | reflexivity | reflexivity | reflexivity].
Defined.

(** A change of the layer selects the layer of the select element and
    starts over at the first time of its index, for the date that is
    selected. *)
Theorem onLayerSelectChange_shows_the_first_time (net : network) (p : page) (ymd : string)
    (status : Z) (idx : json) (t : string) (ts : list string) :
  let kind := layerSelect_value p in
  currentDate p = Some ymd -> ymd <> "" ->
  net (requests p) (indexUrl ymd kind) = Response status (Parsed idx) ->
  ok status = true ->
  timesOr idx = Json.Arr (t :: ts) ->
  exists p', onLayerSelectChange net p = Return tt p' /\
    currentKind p' = kind /\ currentDate p' = Some ymd /\
    times p' = Json.Arr (t :: ts) /\
    timeSlider_value p' = "0" /\
    timeLabel_textContent p' = timeLabelOf t /\
    requests p' = (requests p ++ [indexUrl ymd kind; gridUrl ymd kind t])%list.
Proof.
  intros kind Hd Hne Hr Hok Et. rewrite onLayerSelectChange_run. fold kind.
  set (q := withSliderValue "0" (withCurrentKind kind p)).
  destruct (refresh_first_time net q ymd status idx t ts Hd Hne eq_refl Hr Hok Et)
    as (p' & E & Ht & Hs & Hl & Hq).
  destruct (refresh_ends net q ymd Hd Hne) as (p2 & E2 & Hends).
  assert (p2 = p') as -> by congruence.
  destruct (refreshEnds_selection net q ymd p' Hends) as (Hd' & Hk & _).
  exists p'. split; [exact E |]. split; [exact Hk |].
  split; [rewrite Hd'; exact Hd |].
  repeat (split; [assumption |]). exact Hq.
Qed.

Lemma onLayerSelectChange_shows_the_first_time_witness :
  exists p', onLayerSelectChange sampleNet samplePage = Return tt p' /\
    currentKind p' = "tec" /\ currentDate p' = Some "20240101" /\
    times p' = Json.Arr ["0000"; "1200"] /\
    timeSlider_value p' = "0" /\
    timeLabel_textContent p' = "00:00 UTC" /\
    requests p' = ["./data/20240101/tec/index.json"; "./data/20240101/tec/0000.json"].
Proof.
  apply (onLayerSelectChange_shows_the_first_time sampleNet samplePage "20240101"
           200 (Some sampleIndex));
    [reflexivity | discriminate | reflexivity | reflexivity | reflexivity].
Defined.

(** The click on the today button has no catch block: when the latest
    date cannot be loaded the handler throws the error of the loader, and
    apart from the request made the page is as it was: no run of
    [refresh], no error status, the slider not reset. *)
Theorem onTodayClick_failure_propagates (net : network) (p : page) (m : string) (p1 : page) :
  loadLatestDate net p = Throw m p1 ->
  onTodayClick net p = Throw m (requested latestUrl p).
Proof.
  intros H. unfold onTodayClick, bind.
  rewrite (setDateFromLatest_failed net p m p1 H).
  now rewrite (loadLatestDate_throws net p m p1 H).
Qed.

Lemma onTodayClick_failure_propagates_witness :
  onTodayClick (serve []) samplePage
  = Throw "HTTP 404 ./data/latest.json" (requested latestUrl samplePage).
Proof.
  apply (onTodayClick_failure_propagates (serve []) samplePage
           "HTTP 404 ./data/latest.json" (requested latestUrl samplePage)).
  reflexivity.
Defined.

(** When the latest date is loaded, the click selects it, shows it in the
    date input, resets the slider and runs [refresh], which requests the
    index of that date. *)
Theorem onTodayClick_selects_the_latest_date (net : network) (p : page) (d : string) (p1 : page) :
  loadLatestDate net p = Return d p1 ->
  exists p', onTodayClick net p = Return tt p' /\
    currentDate p' = Some d /\ dateInput_value p' = folderToISODate d /\
    currentKind p' = currentKind p /\
    exists rest,
      requests p' = (requests p ++ latestUrl :: indexUrl d (currentKind p) :: rest)%list.
Proof.
  intros H. destruct (loadLatestDate_page net p d p1 H) as [-> Hne].
  unfold onTodayClick, bind. rewrite (setDateFromLatest_loaded net p d _ H).
  unfold modify.
  set (q := withSliderValue "0"
              (withDateInput (folderToISODate d)
                 (withCurrentDate (Some d) (requested latestUrl p)))).
  destruct (refresh_ends net q d eq_refl Hne) as (p' & E & Hends).
  destruct (refreshEnds_selection net q d p' Hends) as (Hd & Hk & Hi & rest & Hq).
  exists p'. split; [exact E |]. split; [exact Hd |]. split; [exact Hi |].
  split; [exact Hk |]. exists rest. rewrite Hq. subst q.
  change (requests (withSliderValue "0" (withDateInput (folderToISODate d)
            (withCurrentDate (Some d) (requested latestUrl p)))))
    with (requests p ++ [latestUrl])%list.
  rewrite <- app_assoc. reflexivity.
Qed.

Lemma onTodayClick_selects_the_latest_date_witness :
  exists p', onTodayClick latestNet bootPage = Return tt p' /\
    currentDate p' = Some "20240101" /\ dateInput_value p' = "2024-01-01" /\
    currentKind p' = "tec" /\
    exists rest,
      requests p' = (requests bootPage ++
                     latestUrl :: indexUrl "20240101" "tec" :: rest)%list.
Proof.
  apply (onTodayClick_selects_the_latest_date latestNet bootPage "20240101"
           (requested latestUrl bootPage)).
  reflexivity.
Defined.

(** At boot the latest date, when it is loaded, is the one selected and
    shown in the date input, whatever the clock says, and the index of
    that date is requested next. *)
Theorem boot_selects_the_latest_date (net : network) (now : Date) (p : page)
    (d : string) (p1 : page) :
  loadLatestDate net p = Return d p1 ->
  exists p', boot net now p = Return tt p' /\
    currentDate p' = Some d /\ dateInput_value p' = folderToISODate d /\
    exists rest,
      requests p' = (requests p ++ latestUrl :: indexUrl d (currentKind p) :: rest)%list.
Proof.
  intros H. destruct (loadLatestDate_page net p d p1 H) as [-> Hne].
  unfold boot, bind at 1, tryCatch. rewrite (setDateFromLatest_loaded net p d _ H).
  set (q := withDateInput (folderToISODate d)
              (withCurrentDate (Some d) (requested latestUrl p))).
  destruct (refresh_ends net q d eq_refl Hne) as (p' & E & Hends).
  destruct (refreshEnds_selection net q d p' Hends) as (Hd & Hk & Hi & rest & Hq).
  exists p'. split; [exact E |]. split; [exact Hd |]. split; [exact Hi |].
  exists rest. rewrite Hq. subst q.
  change (requests (withDateInput (folderToISODate d)
            (withCurrentDate (Some d) (requested latestUrl p))))
    with (requests p ++ [latestUrl])%list.
  rewrite <- app_assoc. reflexivity.
Qed.

Lemma boot_selects_the_latest_date_witness :
  exists p', boot latestNet sampleNow bootPage = Return tt p' /\
    currentDate p' = Some "20240101" /\ dateInput_value p' = "2024-01-01" /\
    exists rest,
      requests p' = (requests bootPage ++
                     latestUrl :: indexUrl "20240101" "tec" :: rest)%list.
Proof.
  apply (boot_selects_the_latest_date latestNet sampleNow bootPage "20240101"
           (requested latestUrl bootPage)).
  reflexivity.
Defined.

(** Boot and the handlers of the date input, the layer select and the
    slider never throw, whatever the network answers and whatever the
    page holds. *)
Theorem boot_and_change_handlers_never_throw (net : network) (now : Date) (p : page) :
  (exists p', boot net now p = Return tt p') /\
  (exists p', onDateInputChange net p = Return tt p') /\
  (exists p', onLayerSelectChange net p = Return tt p') /\
  (exists p', onTimeSliderInput net p = Return tt p').
Proof.
  split; [| split; [| split]].
  - unfold boot, bind at 1, tryCatch.
    destruct (setDateFromLatest net p) as [[] q | m q]; apply refresh_returns.
  - rewrite onDateInputChange_run. apply refresh_returns.
  - rewrite onLayerSelectChange_run. apply refresh_returns.
  - apply refresh_returns.
Qed.

(** ** Drawing *)


